(** * A shallow embedding of the VAE training driver [main.py]

    The script is modelled as a computation in a small state/trace/error
    monad.  Every call that leaves the script (the file system, the tensor
    framework, the dataset modules, the plotting helpers) is recorded as an
    [Event]; what those calls answer is read from a [World].  Python
    exceptions raised by the script itself are modelled as [Raise].

    Conventions.
    - The script starts from the namespace [args] that [cli.parser] returns;
      [Args] has the fields [main.py] reads.  The modules [cli], [mnist],
      [dsprites] and [loss_plot] are not part of this development: the
      loaders, the [models] dictionaries and the tensor shapes that models
      return are components of the [World], and calls on a [LossPlot] or a
      [SummaryWriter] are events.
    - Python [int] is [Z]; Python [float] is the binary64 type [float],
      whose printed form is supplied by the world.  The one number the
      script evolves on its own account, the learning rate, is a binary64
      number as well: each scheduler step is one multiplication by 0.98,
      rounded to nearest, as [ExponentialLR] does it on the rate held by
      the optimizer.
    - A tensor is represented by its shape; element values are not needed by
      the driver, except for the latent grid it builds by hand, which is a
      nested list of exact rationals.
    - Framework calls that the script merely issues (forward pass, backward
      pass, [save_image], [torch.save], ...) are taken to return normally,
      [save_image] also on a batch of no images; the failure points that
      are modelled are the ones the script's own text decides: the dataset
      dispatch, dictionary lookup, division and modulo, array construction
      and indexing, and tensor reshaping and concatenation.  A run of the
      script that completes is therefore a run of the model that completes,
      with the same trace.
    - [os.mkdir] comes in two layers.  [main] and [run] are the script on a
      file system where the call of line 34 returns; [main_with] and
      [run_with] take the answer of that call from an oracle, so that it may
      raise (no parent directory, no permission).  The two agree whenever
      the call is not made or returns ([run_with_created]); what is said
      about the first statements of the script is said about [run_with]. *)

From Stdlib Require Import String Ascii DecimalString DecimalZ DecimalPos.
From Stdlib Require Import PrimFloat FloatOps SpecFloat.
From Stdlib Require FinFun.
From Stdlib Require Import ZArith QArith Qpower Bool Lia List.
Import ListNotations.

Set Warnings "-inexact-float".

Local Open Scope string_scope.
Local Open Scope list_scope.
Local Open Scope Z_scope.

(** ** Python strings and numbers *)

Module Py.

(** [str.lower] on a character.  Only the ASCII capitals are moved; the
    bytes of a UTF-8 encoded non-ASCII character are left alone, and no
    non-ASCII character lowers to a letter of ['mnist'] or ['dsprites']. *)
Definition lower_ascii (c : ascii) : ascii :=
  let n := N_of_ascii c in
  if ((65 <=? n)%N && (n <=? 90)%N)%bool then ascii_of_N (n + 32) else c.

Fixpoint lower (s : string) : string :=
  match s with
  | EmptyString => EmptyString
  | String c r => String (lower_ascii c) (lower r)
  end.

(** [str(n)] for an integer. *)
Definition str_int (n : Z) : string := NilZero.string_of_int (Z.to_int n).

(** The numbers an argparse namespace can hold for a numeric flag. *)
Inductive num : Type :=
| Int (n : Z)
| Float (x : float).

(** [range(lo, hi)]. *)
Definition range (lo hi : Z) : list Z :=
  map (fun k => lo + Z.of_nat k) (seq 0 (Z.to_nat (hi - lo))).

End Py.

(** ** Tensors as shapes *)

Definition Shape := list Z.

Inductive Exn : Type :=
| Exception (msg : string)
| KeyError (key : string)
| ZeroDivisionError
| IndexError
| TypeError
| ValueError
| RuntimeError
| FileNotFoundError
| OSError.

Inductive Outcome (A : Type) : Type :=
| Ok (a : A)
| Raise (e : Exn).
Arguments Ok {A} a.
Arguments Raise {A} e.

Module Tensor.

Definition numel (s : Shape) : Z := fold_right Z.mul 1 s.

(** [t.size(0)]. *)
Definition size0 (s : Shape) : Outcome Z :=
  match s with
  | [] => Raise IndexError
  | d :: _ => Ok d
  end.

(** [len(t)]. *)
Definition len (s : Shape) : Outcome Z :=
  match s with
  | [] => Raise TypeError
  | d :: _ => Ok d
  end.

(** [t.view] with the given dimensions, on a contiguous tensor: at most
    one dimension may be [-1], in which case it is inferred; the element
    count must agree. *)
Definition view (s target : Shape) : Outcome Shape :=
  if existsb (fun d => d <? -1) target then Raise RuntimeError
  else
    let known := filter (fun d => negb (d =? -1)) target in
    let holes := filter (fun d => d =? -1) target in
    match holes with
    | [] => if numel target =? numel s then Ok target else Raise RuntimeError
    | [_] =>
        let p := numel known in
        if (p =? 0) || negb (numel s mod p =? 0) then Raise RuntimeError
        else Ok (map (fun d => if d =? -1 then numel s / p else d) target)
    | _ => Raise RuntimeError
    end.

(** [t[:n]] for [0 <= n]. *)
Definition take (n : Z) (s : Shape) : Outcome Shape :=
  match s with
  | [] => Raise IndexError
  | d :: rest => Ok (Z.min n d :: rest)
  end.

Definition shape_eqb (a b : Shape) : bool :=
  if list_eq_dec Z.eq_dec a b then true else false.

(** [torch.cat([a, b])] along dimension 0. *)
Definition cat (a b : Shape) : Outcome Shape :=
  match a, b with
  | da :: ra, db :: rb =>
      if shape_eqb ra rb then Ok (da + db :: ra) else Raise RuntimeError
  | _, _ => Raise RuntimeError
  end.

End Tensor.

(** ** Command-line arguments

    The fields of the argparse namespace that [main.py] reads. *)

Record Args : Type := {
  data : string;
  model_name : string;
  z_dim : Z;
  beta : Py.num;
  batch_size : Z;
  epochs : Z;
  log_interval : Z;
  seed : Z;
  no_cuda : bool;
  tensorboard : bool
}.

Inductive Dataset : Type := MNIST | DSprites.

(** What a [DataLoader] shows to the driver: the batches it yields (their
    data tensors), [len(loader.sampler)] and [len(loader.dataset)]. *)
Record Loader : Type := {
  batches : list Shape;
  sampler_len : Z;
  dataset_len : Z
}.

(** The model object built on line 65. *)
Record Model : Type := {
  m_data : Dataset;
  m_name : string;
  m_z_dim : Z;
  m_img_size : Z
}.

(** ** The world outside the script *)

Record World : Type := {
  cuda_available : bool;
  path_exists : string -> bool;
  (** does [models] of the dataset's module have this key *)
  has_model : Dataset -> string -> bool;
  (** [load_mnist] / [load_dsprites] *)
  load_data : Dataset -> Args -> Loader * Loader;
  (** shape of the reconstruction returned by [model(data)] *)
  recon_shape : Model -> Shape -> Shape;
  (** shape of [model.decode(z)] *)
  decode_shape : Model -> Shape -> Shape;
  (** [str] of a float *)
  str_float : float -> string
}.

Definition str_num (w : World) (x : Py.num) : string :=
  match x with
  | Py.Int n => Py.str_int n
  | Py.Float f => str_float w f
  end.

(** ** Events *)

Inductive Printed : Type :=
| PRunningOnGPU (cuda : bool)
| PArguments (a : Args)
| PDirCreated (dir : string)
| PDirExists (dir : string)
| PTotalTraining (n : Z)
| PTotalTesting (n : Z)
| PTotalParameters
| PTrainProgress (epoch batch_idx seen total : Z)
| PEpochAverage (epoch : Z)
| PTestLoss
| PLearningRate (lr : float)
| PModelSaved (path : string)
| PLatentSampled.

(** The values stored in the checkpoint dictionary. *)
Inductive CkptValue : Type :=
| TheModel (m : Model)
| ModelStateDict (m : Model) (steps : nat)
| OptimizerStateDict (lr : float) (steps : nat).

(** The argument of [model.decode]. *)
Inductive Latent : Type :=
| Randn (rows cols : Z)
| Grid (rows : list (list Q)).

Inductive Event : Type :=
| EManualSeed (s : Z)
| EPrint (p : Printed)
| EMkdir (dir : string)
| ELoad (d : Dataset) (batch : Z)
| ENewModel (m : Model)
| ENewAdam (lr : float)
| ENewExponentialLR (gamma : float)
| ENewSummaryWriter
| ENewLossPlot (epochs data_len batch plot_interval : Z) (dir : string)
| ESetTrain
| ESetEval
| EZeroGrad
| EForward (training : bool) (data : Shape)
| ELoss (training : bool) (beta : Py.num)
| EBackward
| EOptimizerStep
| EAddScalars (tag : string) (step : Z)
| EPlotAddItem
| EPlotAddTestItem
| ESchedulerStep
| EDecode (z : Latent)
| ESaveImage (path : string) (shape : Shape) (nrow : Z)
| ETorchSave (path : string) (dict : list (string * CkptValue)).

(** ** Interpreter state: the mutable objects the script holds *)

Record St : Type := {
  lr : float;      (* optimizer.param_groups[0]['lr'] *)
  last_epoch : Z;  (* scheduler.last_epoch *)
  steps : nat      (* number of optimizer.step() calls so far *)
}.

(** ** The monad *)

Definition M (A : Type) : Type := St -> list Event * St * Outcome A.

Definition ret {A} (a : A) : M A := fun s => ([], s, Ok a).

Definition bind {A B} (m : M A) (f : A -> M B) : M B :=
  fun s =>
    match m s with
    | (t1, s1, Ok a) =>
        match f a s1 with
        | (t2, s2, o) => (t1 ++ t2, s2, o)
        end
    | (t1, s1, Raise e) => (t1, s1, Raise e)
    end.

Definition raise {A} (e : Exn) : M A := fun s => ([], s, Raise e).

Definition emit (e : Event) : M unit := fun s => ([e], s, Ok tt).

Definition get : M St := fun s => ([], s, Ok s).

Definition put (s : St) : M unit := fun _ => ([], s, Ok tt).

Definition lift {A} (o : Outcome A) : M A :=
  match o with
  | Ok a => ret a
  | Raise e => raise e
  end.

Notation "x <- m ;; k" := (bind m (fun x => k))
  (at level 61, m at next level, right associativity).
Notation "m ;; k" := (bind m (fun _ => k))
  (at level 61, right associativity).

(** [for i, x in enumerate(xs): body i x], starting the count at [i]. *)
Fixpoint for_enumerate {X} (i : Z) (xs : list X) (body : Z -> X -> M unit)
  : M unit :=
  match xs with
  | [] => ret tt
  | x :: rest => body i x ;; for_enumerate (i + 1) rest body
  end.

(** [for x in xs: body x]. *)
Fixpoint for_each {X} (xs : list X) (body : X -> M unit) : M unit :=
  match xs with
  | [] => ret tt
  | x :: rest => body x ;; for_each rest body
  end.

(** Python's [a / b] as far as the driver is concerned: it raises when the
    divisor is zero and its value is only printed or plotted. *)
Definition divide_by (b : Z) : M unit :=
  if b =? 0 then raise ZeroDivisionError else ret tt.

(** Python's [a % b]. *)
Definition py_mod (a b : Z) : M Z :=
  if b =? 0 then raise ZeroDivisionError else ret (a mod b).

(** ** The script, top to bottom *)

(** The literals [1e-3] and [0.98] of lines 66 and 71, as the binary64
    numbers Python reads them as. *)
Definition lr0 : float := 0x1.0624dd2f1a9fcp-10%float.
Definition gamma : float := 0x1.f5c28f5c28f5cp-1%float.
Definition nums : nat := 11.

(** What the dataset dispatch binds: [img_size], the model class and the
    two loaders. *)
Record Env : Type := {
  dataset : Dataset;
  img_size : Z;
  train_loader : Loader;
  test_loader : Loader
}.

(** Line 32. *)
Definition dirName (w : World) (a : Args) : string :=
  ("results_" ++ data a ++ "_" ++ model_name a
     ++ "_zdim-" ++ Py.str_int (z_dim a)
     ++ "_beta-" ++ str_num w (beta a))%string.

(** Lines 21-27. *)
Definition parse_args (w : World) (a : Args) : M unit :=
  emit (EManualSeed (seed a)) ;;
  emit (EPrint (PRunningOnGPU (negb (no_cuda a) && cuda_available w))) ;;
  emit (EPrint (PArguments a)).

(** Lines 33-37, on a file system where [os.mkdir] returns; [make_dir_with]
    below lets the call raise. *)
Definition make_dir (w : World) (a : Args) : M unit :=
  if negb (path_exists w (dirName w a)) then
    emit (EMkdir (dirName w a)) ;;
    emit (EPrint (PDirCreated (dirName w a)))
  else
    emit (EPrint (PDirExists (dirName w a))).

(** [models[args.model_name]]. *)
Definition lookup_model (w : World) (d : Dataset) (a : Args) : M unit :=
  if has_model w d (model_name a) then ret tt
  else raise (KeyError (model_name a)).

(** Lines 42-56. *)
Definition load_dataset (w : World) (a : Args) : M Env :=
  if (Py.lower (data a) =? "mnist")%string then
    lookup_model w MNIST a ;;
    emit (ELoad MNIST (batch_size a)) ;;
    ret {| dataset := MNIST; img_size := 28;
           train_loader := fst (load_data w MNIST a);
           test_loader := snd (load_data w MNIST a) |}
  else if (Py.lower (data a) =? "dsprites")%string then
    lookup_model w DSprites a ;;
    emit (ELoad DSprites (batch_size a)) ;;
    ret {| dataset := DSprites; img_size := 64;
           train_loader := fst (load_data w DSprites a);
           test_loader := snd (load_data w DSprites a) |}
  else raise (Exception "Dataset not found. Try: MNIST, dSprites").

(** Lines 58-59. *)
Definition report_sizes (env : Env) : M unit :=
  emit (EPrint (PTotalTraining (sampler_len (train_loader env)))) ;;
  emit (EPrint (PTotalTesting (sampler_len (test_loader env)))).

Definition the_model (a : Args) (env : Env) : Model :=
  {| m_data := dataset env; m_name := model_name a;
     m_z_dim := z_dim a; m_img_size := img_size env |}.

(** Lines 64-74. *)
Definition build_model (a : Args) (env : Env) : M unit :=
  emit (ENewModel (the_model a env)) ;;
  emit (ENewAdam lr0) ;;
  emit (ENewExponentialLR gamma) ;;
  put {| lr := lr0; last_epoch := 0; steps := 0 |} ;;
  emit (EPrint PTotalParameters).

(** Lines 77-84. *)
Definition build_plots (w : World) (a : Args) (env : Env) : M unit :=
  if tensorboard a then emit ENewSummaryWriter
  else emit (ENewLossPlot (epochs a) (sampler_len (train_loader env))
                          (batch_size a) 50 (dirName w a)).

(** [optimizer.step()]. *)
Definition optimizer_step : M unit :=
  emit EOptimizerStep ;;
  s <- get ;;
  put {| lr := lr s; last_epoch := last_epoch s; steps := S (steps s) |}.

(** [scheduler.step()] of [ExponentialLR]: one more epoch, and
    [group['lr'] * gamma] stored back in the optimizer's parameter group, a
    binary64 multiplication that rounds to nearest. *)
Definition scheduler_step : M unit :=
  emit ESchedulerStep ;;
  s <- get ;;
  put {| lr := PrimFloat.mul (lr s) gamma; last_epoch := last_epoch s + 1;
         steps := steps s |}.

(** Lines 108-113. *)
Definition plot_train (a : Args) (epoch batch_idx : Z) : M unit :=
  if tensorboard a then
    divide_by (batch_size a) ;;
    emit (EAddScalars "train_data" (batch_idx * epoch))
  else
    divide_by (batch_size a) ;;
    emit EPlotAddItem.

(** Lines 115-119. *)
Definition log_train (a : Args) (env : Env) (epoch batch_idx : Z)
    (data : Shape) : M unit :=
  r <- py_mod batch_idx (log_interval a) ;;
  if (r =? 0) && negb (batch_idx =? 0) then
    n <- lift (Tensor.len data) ;;
    divide_by (Z.of_nat (length (batches (train_loader env)))) ;;
    divide_by n ;;
    emit (EPrint (PTrainProgress epoch batch_idx (batch_idx * n)
                                 (dataset_len (train_loader env))))
  else ret tt.

(** Lines 95-119: one training batch. *)
Definition train_batch (a : Args) (env : Env) (epoch batch_idx : Z)
    (data : Shape) : M unit :=
  emit EZeroGrad ;;
  emit (EForward true data) ;;
  emit (ELoss true (beta a)) ;;
  emit EBackward ;;
  optimizer_step ;;
  plot_train a epoch batch_idx ;;
  log_train a env epoch batch_idx data.

(** Lines 91-125. *)
Definition train (a : Args) (env : Env) (epoch : Z) : M unit :=
  emit ESetTrain ;;
  for_enumerate 0 (batches (train_loader env)) (train_batch a env epoch) ;;
  scheduler_step ;;
  divide_by (sampler_len (train_loader env)) ;;
  emit (EPrint (PEpochAverage epoch)).

Definition reconstruction_path (w : World) (a : Args) (epoch : Z) : string :=
  (dirName w a ++ "/reconstruction_" ++ Py.str_int epoch ++ ".png")%string.

(** Lines 138-143. *)
Definition save_reconstruction (w : World) (a : Args) (env : Env)
    (epoch : Z) (data : Shape) : M unit :=
  d0 <- lift (Tensor.size0 data) ;;
  let n := Z.min d0 8 in
  recon_batch <- lift (Tensor.view (recon_shape w (the_model a env) data)
                         [batch_size a; 1; img_size env; img_size env]) ;;
  top <- lift (Tensor.take n data) ;;
  bottom <- lift (Tensor.take n recon_batch) ;;
  comparison <- lift (Tensor.cat top bottom) ;;
  emit (ESaveImage (reconstruction_path w a epoch) comparison n).

(** Lines 133-143: one test batch. *)
Definition test_batch (w : World) (a : Args) (env : Env) (epoch i : Z)
    (data : Shape) : M unit :=
  emit (EForward false data) ;;
  emit (ELoss false (beta a)) ;;
  if i =? 0 then save_reconstruction w a env epoch data else ret tt.

(** Lines 128-154. *)
Definition test (w : World) (a : Args) (env : Env) (epoch : Z) : M unit :=
  emit ESetEval ;;
  for_enumerate 0 (batches (test_loader env)) (test_batch w a env epoch) ;;
  divide_by (sampler_len (test_loader env)) ;;
  (if tensorboard a then
     emit (EAddScalars "test_data"
             (epoch * Z.of_nat (length (batches (train_loader env)))))
   else emit EPlotAddTestItem) ;;
  emit (EPrint PTestLoss).

Definition sample_path (w : World) (a : Args) (epoch : Z) : string :=
  (dirName w a ++ "/sample_" ++ Py.str_int epoch ++ ".png")%string.

(** Lines 161-162: Adam holds one parameter group.  The event carries the
    rate that is read; the text printed shows seven of its decimals. *)
Definition report_lr : M unit :=
  s <- get ;;
  emit (EPrint (PLearningRate (lr s))).

(** Lines 164-169. [torch.randn] refuses a negative dimension; [save_image]
    is called with its default [nrow=8]. *)
Definition sample_prior (w : World) (a : Args) (env : Env) (epoch : Z)
  : M unit :=
  (if z_dim a <? 0 then raise RuntimeError else ret tt) ;;
  emit (EDecode (Randn 64 (z_dim a))) ;;
  sample <- lift (Tensor.view (decode_shape w (the_model a env) [64; z_dim a])
                    [64; 1; img_size env; img_size env]) ;;
  emit (ESaveImage (sample_path w a epoch) sample 8).

(** Lines 157-169: the body of the epoch loop. *)
Definition epoch_body (w : World) (a : Args) (env : Env) (epoch : Z)
  : M unit :=
  train a env epoch ;;
  test w a env epoch ;;
  report_lr ;;
  sample_prior w a env epoch.

Definition model_out_path (w : World) (a : Args) : string :=
  (dirName w a ++ "/" ++ model_name a ++ "_model.pth")%string.

(** Lines 174-179. *)
Definition save_checkpoint (w : World) (a : Args) (env : Env) : M unit :=
  s <- get ;;
  emit (ETorchSave (model_out_path w a)
          [("model", TheModel (the_model a env));
           ("state_dict", ModelStateDict (the_model a env) (steps s));
           ("optimizer", OptimizerStateDict (lr s) (steps s))]) ;;
  emit (EPrint (PModelSaved (model_out_path w a))).

(** *** The latent-space traversal (lines 184-194) *)

Definition and_then {A B} (o : Outcome A) (f : A -> Outcome B) : Outcome B :=
  match o with
  | Ok a => f a
  | Raise e => Raise e
  end.

(** [np.linspace(start, stop, num)], in exact arithmetic. *)
Definition linspace (start stop : Q) (num : nat) : list Q :=
  map (fun i => Qred (start + inject_Z (Z.of_nat i)
                              * ((stop - start) / inject_Z (Z.of_nat num - 1))))
      (seq 0 num).

Definition x_range : list Q := linspace (-3) 3 nums.

(** [np.zeros((a, b, c))]. *)
Definition zeros3 (a b c : Z) : Outcome (list (list (list Q))) :=
  if (a <? 0) || (b <? 0) || (c <? 0) then Raise ValueError
  else Ok (repeat (repeat (repeat 0%Q (Z.to_nat c)) (Z.to_nat b)) (Z.to_nat a)).

(** [l[i] = f(l[i])]; an index past the end raises. *)
Fixpoint update {X} (i : nat) (f : X -> Outcome X) (l : list X)
  : Outcome (list X) :=
  match l, i with
  | [], _ => Raise IndexError
  | x :: r, O => and_then (f x) (fun y => Ok (y :: r))
  | x :: r, S j => and_then (update j f r) (fun r' => Ok (x :: r'))
  end.

(** [plane[:, dim] = xs]: row [k] receives [xs[k]] in column [dim]; the two
    lengths must agree. *)
Fixpoint assign_column (dim : nat) (plane : list (list Q)) (xs : list Q)
  : Outcome (list (list Q)) :=
  match plane, xs with
  | [], [] => Ok []
  | row :: plane', x :: xs' =>
      and_then (update dim (fun _ => Ok x) row) (fun row' =>
      and_then (assign_column dim plane' xs') (fun rest =>
      Ok (row' :: rest)))
  | _, _ => Raise ValueError
  end.

(** [z[dim, :, dim] = xs]. *)
Definition assign (xs : list Q) (z : list (list (list Q))) (dim : nat)
  : Outcome (list (list (list Q))) :=
  update dim (fun plane => assign_column dim plane xs) z.

(** [for dim in dims: z[dim, :, dim] = xs]. *)
Fixpoint fill (dims : list nat) (xs : list Q) (z : list (list (list Q)))
  : Outcome (list (list (list Q))) :=
  match dims with
  | [] => Ok z
  | dim :: rest => and_then (assign xs z dim) (fill rest xs)
  end.

(** Lines 184-190: the batch of latent vectors; the final [view] merges the
    first two axes. *)
Definition latent_grid (zd : Z) : Outcome (list (list Q)) :=
  and_then (zeros3 zd (Z.of_nat nums) zd) (fun z =>
  and_then (fill (seq 0 (Z.to_nat zd)) x_range z) (fun z =>
  Ok (concat z))).

Definition latent_path (w : World) (a : Args) : string :=
  (dirName w a ++ "/sample_latent_space.png")%string.

Definition sample_latent_space (w : World) (a : Args) (env : Env) : M unit :=
  z <- lift (latent_grid (z_dim a)) ;;
  emit (EDecode (Grid z)) ;;
  sample <- lift (Tensor.view
                    (decode_shape w (the_model a env)
                       [z_dim a * Z.of_nat nums; z_dim a])
                    [z_dim a * Z.of_nat nums; 1; img_size env; img_size env]) ;;
  emit (ESaveImage (latent_path w a) sample (Z.of_nat nums)) ;;
  emit (EPrint PLatentSampled).

(** *** The whole script *)

(** Lines 58-84: the objects the training loop works on. *)
Definition setup (w : World) (a : Args) (env : Env) : M unit :=
  report_sizes env ;;
  build_model a env ;;
  build_plots w a env.

(** Lines 157-169: [for epoch in range(1, args.epochs + 1)]. *)
Definition epoch_loop (w : World) (a : Args) (env : Env) : M unit :=
  for_each (Py.range 1 (epochs a + 1)) (epoch_body w a env).

(** Lines 58-195: everything after the dataset dispatch. *)
Definition after_dispatch (w : World) (a : Args) (env : Env) : M unit :=
  setup w a env ;;
  epoch_loop w a env ;;
  save_checkpoint w a env ;;
  sample_latent_space w a env.

Definition main (w : World) (a : Args) : M unit :=
  parse_args w a ;;
  make_dir w a ;;
  env <- load_dataset w a ;;
  after_dispatch w a env.

(** The state before the optimizer and the scheduler exist. *)
Definition boot : St := {| lr := 0%float; last_epoch := -1; steps := 0 |}.

Definition trace {A} (r : list Event * St * Outcome A) : list Event :=
  fst (fst r).
Definition final {A} (r : list Event * St * Outcome A) : St := snd (fst r).
Definition outcome {A} (r : list Event * St * Outcome A) : Outcome A := snd r.

Definition run (w : World) (a : Args) : list Event * St * Outcome unit :=
  main w a boot.

(** *** The script on a file system where [os.mkdir] may raise

    [os.mkdir(path)] raises when the parent of [path] does not exist (a name
    with a ['/'] in it), when the name is too long, when the directory is
    not writable, and so on: [mk path] is the error raised, if any. *)
Definition Mkdir : Type := string -> option Exn.

(** Lines 33-37. *)
Definition make_dir_with (mk : Mkdir) (w : World) (a : Args) : M unit :=
  if negb (path_exists w (dirName w a)) then
    emit (EMkdir (dirName w a)) ;;
    match mk (dirName w a) with
    | Some e => raise e
    | None => ret tt
    end ;;
    emit (EPrint (PDirCreated (dirName w a)))
  else
    emit (EPrint (PDirExists (dirName w a))).

Definition main_with (mk : Mkdir) (w : World) (a : Args) : M unit :=
  parse_args w a ;;
  make_dir_with mk w a ;;
  env <- load_dataset w a ;;
  after_dispatch w a env.

Definition run_with (mk : Mkdir) (w : World) (a : Args)
  : list Event * St * Outcome unit :=
  main_with mk w a boot.

(** The error that line 34 raises in this run, if it does. *)
Definition mkdir_failure (mk : Mkdir) (w : World) (a : Args) : option Exn :=
  if path_exists w (dirName w a) then None else mk (dirName w a).

(** What the run has emitted when line 34 raises. *)
Definition failed_mkdir_events (w : World) (a : Args) : list Event :=
  [EManualSeed (seed a);
   EPrint (PRunningOnGPU (negb (no_cuda a) && cuda_available w));
   EPrint (PArguments a);
   EMkdir (dirName w a)].

(** ** Observations on a trace *)

Definition is_model_event (e : Event) : bool :=
  match e with ENewModel _ => true | _ => false end.

Definition is_training_event (e : Event) : bool :=
  match e with
  | EZeroGrad | EForward _ _ | ELoss _ _ | EBackward | EOptimizerStep
  | ESchedulerStep | ESetTrain | ESetEval => true
  | _ => false
  end.

(** The path of a file the script writes with this call, if it writes one
    ([save_image] and [torch.save] are the only writes in [main.py]). *)
Definition written_file (e : Event) : option string :=
  match e with
  | ESaveImage p _ _ => Some p
  | ETorchSave p _ => Some p
  | _ => None
  end.

Definition image_file (e : Event) : option string :=
  match e with
  | ESaveImage p _ _ => Some p
  | _ => None
  end.

Fixpoint collect {X Y} (f : X -> option Y) (l : list X) : list Y :=
  match l with
  | [] => []
  | x :: r => match f x with
              | Some y => y :: collect f r
              | None => collect f r
              end
  end.

Definition files_written (t : list Event) : list string :=
  collect written_file t.
Definition images_written (t : list Event) : list string :=
  collect image_file t.

Definition checkpoint_of (e : Event)
  : option (string * list (string * CkptValue)) :=
  match e with
  | ETorchSave p d => Some (p, d)
  | _ => None
  end.

Definition learning_rate_of (e : Event) : option float :=
  match e with
  | EPrint (PLearningRate q) => Some q
  | _ => None
  end.

Definition initial_rate_of (e : Event) : option float :=
  match e with
  | ENewAdam q => Some q
  | _ => None
  end.

Definition decay_of (e : Event) : option float :=
  match e with
  | ENewExponentialLR g => Some g
  | _ => None
  end.

(** The calls into the framework that compute: mode switches, the batch
    step, the scheduler step and decoding. *)
Definition computation (e : Event) : option Event :=
  match e with
  | ESetTrain | ESetEval | EZeroGrad | EForward _ _ | ELoss _ _ | EBackward
  | EOptimizerStep | ESchedulerStep | EDecode _ => Some e
  | _ => None
  end.

Definition checkpoints (t : list Event) := collect checkpoint_of t.
Definition learning_rates (t : list Event) : list float :=
  collect learning_rate_of t.
Definition computations (t : list Event) : list Event := collect computation t.

(** The learning-rate schedule a trace sets up: the initial rate handed to
    Adam and the decay handed to the scheduler, once both exist. *)
Definition schedule (t : list Event) : option (float * float) :=
  match collect initial_rate_of t, collect decay_of t with
  | q :: _, g :: _ => Some (q, g)
  | _, _ => None
  end.


(** A computation that emits only events satisfying [P], whatever the state
    it starts from and whether or not it returns. *)
Definition always {A} (P : Event -> Prop) (m : M A) : Prop :=
  forall s, Forall P (trace (m s)).

(** A computation that leaves the interpreter state alone. *)
Definition keeps {A} (m : M A) : Prop := forall s, final (m s) = s.

(** The dataset the dispatch settles on, if any. *)
Definition selected (a : Args) : option Dataset :=
  if (Py.lower (data a) =? "mnist")%string then Some MNIST
  else if (Py.lower (data a) =? "dsprites")%string then Some DSprites
  else None.

(** One command line with a single flag given another value. *)
Module Flag.

Definition set_data (v : string) (a : Args) : Args :=
  {| data := v; model_name := model_name a; z_dim := z_dim a; beta := beta a;
     batch_size := batch_size a; epochs := epochs a;
     log_interval := log_interval a; seed := seed a; no_cuda := no_cuda a;
     tensorboard := tensorboard a |}.

Definition set_model_name (v : string) (a : Args) : Args :=
  {| data := data a; model_name := v; z_dim := z_dim a; beta := beta a;
     batch_size := batch_size a; epochs := epochs a;
     log_interval := log_interval a; seed := seed a; no_cuda := no_cuda a;
     tensorboard := tensorboard a |}.

Definition set_z_dim (v : Z) (a : Args) : Args :=
  {| data := data a; model_name := model_name a; z_dim := v; beta := beta a;
     batch_size := batch_size a; epochs := epochs a;
     log_interval := log_interval a; seed := seed a; no_cuda := no_cuda a;
     tensorboard := tensorboard a |}.

Definition set_beta (v : Py.num) (a : Args) : Args :=
  {| data := data a; model_name := model_name a; z_dim := z_dim a; beta := v;
     batch_size := batch_size a; epochs := epochs a;
     log_interval := log_interval a; seed := seed a; no_cuda := no_cuda a;
     tensorboard := tensorboard a |}.

Definition set_batch_size (v : Z) (a : Args) : Args :=
  {| data := data a; model_name := model_name a; z_dim := z_dim a;
     beta := beta a; batch_size := v; epochs := epochs a;
     log_interval := log_interval a; seed := seed a; no_cuda := no_cuda a;
     tensorboard := tensorboard a |}.

Definition set_epochs (v : Z) (a : Args) : Args :=
  {| data := data a; model_name := model_name a; z_dim := z_dim a;
     beta := beta a; batch_size := batch_size a; epochs := v;
     log_interval := log_interval a; seed := seed a; no_cuda := no_cuda a;
     tensorboard := tensorboard a |}.

Definition set_tensorboard (v : bool) (a : Args) : Args :=
  {| data := data a; model_name := model_name a; z_dim := z_dim a;
     beta := beta a; batch_size := batch_size a; epochs := epochs a;
     log_interval := log_interval a; seed := seed a; no_cuda := no_cuda a;
     tensorboard := v |}.

End Flag.

(** The sinks a trace sends its loss curve to. *)
Definition plot_sink (e : Event) : option Event :=
  match e with
  | ENewSummaryWriter | ENewLossPlot _ _ _ _ _ => Some e
  | _ => None
  end.

Definition load_of (e : Event) : option (Dataset * Z) :=
  match e with
  | ELoad d b => Some (d, b)
  | _ => None
  end.

Definition model_of (e : Event) : option Model :=
  match e with
  | ENewModel m => Some m
  | _ => None
  end.

Definition loss_weight_of (e : Event) : option Py.num :=
  match e with
  | ELoss _ b => Some b
  | _ => None
  end.

(** A computation that leaves the observation [f] of the state alone. *)
Definition stable {A X} (f : St -> X) (m : M A) : Prop :=
  forall s, f (final (m s)) = f s.

(** What the dispatch binds once it has settled on dataset [d]. *)
Definition env_of (w : World) (a : Args) (d : Dataset) : Env :=
  {| dataset := d;
     img_size := match d with MNIST => 28 | DSprites => 64 end;
     train_loader := fst (load_data w d a);
     test_loader := snd (load_data w d a) |}.

(** [g i x] laid end to end along [enumerate(xs)], counting from [i]. *)
Fixpoint enum_flat {X Y} (g : Z -> X -> list Y) (i : Z) (xs : list X) : list Y :=
  match xs with
  | [] => []
  | x :: rest => g i x ++ enum_flat g (i + 1) rest
  end.

(** *** The training driver as the specification words it

    A nested sequential iteration: for each epoch in increasing order, every
    training batch in order (forward pass, loss, backward pass, optimizer
    step), then evaluation over every test batch, then prior samples. *)

Definition batch_step (a : Args) (data : Shape) : list Event :=
  [EZeroGrad; EForward true data; ELoss true (beta a); EBackward;
   EOptimizerStep].

Definition eval_step (a : Args) (data : Shape) : list Event :=
  [EForward false data; ELoss false (beta a)].

Definition epoch_computations (a : Args) (env : Env) (epoch : Z) : list Event :=
  (ESetTrain :: flat_map (batch_step a) (batches (train_loader env))
     ++ [ESchedulerStep])
  ++ (ESetEval :: flat_map (eval_step a) (batches (test_loader env)))
  ++ [EDecode (Randn 64 (z_dim a))].

Definition training_computations (a : Args) (env : Env) : list Event :=
  flat_map (epoch_computations a env) (Py.range 1 (epochs a + 1)).

(** The rates [q*gamma, q*gamma^2, ...] of [n] successive epochs started at
    rate [q]. *)
Fixpoint decayed (q : float) (n : nat) : list float :=
  match n with
  | O => []
  | S k => PrimFloat.mul q gamma :: decayed (PrimFloat.mul q gamma) k
  end.

(** [n] scheduler steps applied to the rate [q]. *)
Fixpoint decay_n (q : float) (n : nat) : float :=
  match n with
  | O => q
  | S k => PrimFloat.mul (decay_n q k) gamma
  end.

Definition scheduler_step_of (e : Event) : option unit :=
  match e with
  | ESchedulerStep => Some tt
  | _ => None
  end.

(** The state in which the first epoch starts. *)
Definition fresh : St := {| lr := lr0; last_epoch := 0; steps := 0 |}.

(** What [setup] emits. *)
Definition setup_events (w : World) (a : Args) (env : Env) : list Event :=
  [EPrint (PTotalTraining (sampler_len (train_loader env)));
   EPrint (PTotalTesting (sampler_len (test_loader env)));
   ENewModel (the_model a env); ENewAdam lr0; ENewExponentialLR gamma;
   EPrint PTotalParameters;
   if tensorboard a then ENewSummaryWriter
   else ENewLossPlot (epochs a) (sampler_len (train_loader env))
                     (batch_size a) 50 (dirName w a)].

(** *** The latent traversal as the specification words it

    [n] groups of 11 vectors of length [n]; in group [d], coordinate [d]
    runs over the 11 values and every other coordinate is 0. *)

Definition unit_row (n d : nat) (x : Q) : list Q :=
  repeat 0%Q d ++ x :: repeat 0%Q (n - d - 1).

Definition group (n : nat) (xs : list Q) (d : nat) : list (list Q) :=
  map (unit_row n d) xs.

Definition traversal (n : nat) : list (list Q) :=
  flat_map (group n x_range) (seq 0 n).

(** What argument parsing and directory creation emit. *)
Definition prologue_events (w : World) (a : Args) : list Event :=
  EManualSeed (seed a)
  :: EPrint (PRunningOnGPU (negb (no_cuda a) && cuda_available w))
  :: EPrint (PArguments a)
  :: (if path_exists w (dirName w a)
      then [EPrint (PDirExists (dirName w a))]
      else [EMkdir (dirName w a); EPrint (PDirCreated (dirName w a))]).

(** The dictionary handed to [torch.save] in state [s]. *)
Definition checkpoint_dict (a : Args) (env : Env) (s : St)
  : list (string * CkptValue) :=
  [("model", TheModel (the_model a env));
   ("state_dict", ModelStateDict (the_model a env) (steps s));
   ("optimizer", OptimizerStateDict (lr s) (steps s))].

(** The epochs a trace reports as finished, in the order reported. *)
Definition epoch_of (e : Event) : option Z :=
  match e with
  | EPrint (PEpochAverage n) => Some n
  | _ => None
  end.

Definition epochs_run (t : list Event) : list Z := collect epoch_of t.

(** Events that are none of the things the observations above pick out. *)
Definition plumbing (e : Event) : Prop :=
  computation e = None /\ image_file e = None /\ checkpoint_of e = None
  /\ learning_rate_of e = None /\ epoch_of e = None.

(** What the script emits after the epoch loop, from state [s], for the
    latent grid [g] and the decoded tensor [shape]. *)
Definition closing_events (w : World) (a : Args) (env : Env) (s : St)
    (g : list (list Q)) (shape : Shape) : list Event :=
  [ETorchSave (model_out_path w a) (checkpoint_dict a env s);
   EPrint (PModelSaved (model_out_path w a));
   EDecode (Grid g); ESaveImage (latent_path w a) shape 11;
   EPrint PLatentSampled].

(** *** Conditions under which the script runs to its end

    A batch has a leading dimension and is not empty. *)
Definition batch_ok (sh : Shape) : Prop :=
  exists d rest, sh = d :: rest /\ d <> 0.

(** Dataset [d] is selected and its module knows the model; the sizes the
    script divides by are non-zero; the first test batch is a full batch of
    one-channel images; the model reconstructs and decodes one
    [img_size] x [img_size] image per row. *)
Definition well_behaved (w : World) (a : Args) (d : Dataset) : Prop :=
  let env := env_of w a d in
  let m := the_model a env in
  let px := img_size env * img_size env in
  selected a = Some d
  /\ has_model w d (model_name a) = true
  /\ 0 < batch_size a /\ log_interval a <> 0 /\ 0 < z_dim a
  /\ sampler_len (train_loader env) <> 0
  /\ sampler_len (test_loader env) <> 0
  /\ Forall batch_ok (batches (train_loader env))
  /\ (forall data rest, batches (test_loader env) = data :: rest ->
        data = [batch_size a; 1; img_size env; img_size env])
  /\ Tensor.numel (recon_shape w m [batch_size a; 1; img_size env; img_size env])
     = batch_size a * px
  /\ (forall rows, 0 < rows ->
        Tensor.numel (decode_shape w m [rows; z_dim a]) = rows * px).

(** *** Further observations *)

Definition mkdir_of (e : Event) : option string :=
  match e with
  | EMkdir d => Some d
  | _ => None
  end.

Definition add_scalars_of (e : Event) : option (string * Z) :=
  match e with
  | EAddScalars tag step => Some (tag, step)
  | _ => None
  end.

(** The batch index of a training progress line. *)
Definition progress_of (e : Event) : option Z :=
  match e with
  | EPrint (PTrainProgress _ i _ _) => Some i
  | _ => None
  end.

Definition uses_tensorboard (e : Event) : bool :=
  match e with
  | ENewSummaryWriter | EAddScalars _ _ => true
  | _ => false
  end.

Definition uses_loss_plot (e : Event) : bool :=
  match e with
  | ENewLossPlot _ _ _ _ _ | EPlotAddItem | EPlotAddTestItem => true
  | _ => false
  end.

(** The test of line 115. *)
Definition logged (a : Args) (i : Z) : bool :=
  (i mod log_interval a =? 0) && negb (i =? 0).

(** What one call of [plot_train] emits. *)
Definition plot_event (a : Args) (epoch i : Z) : Event :=
  if tensorboard a then EAddScalars "train_data" (i * epoch) else EPlotAddItem.


(** Everything a run does apart from plotting and printing. *)
Definition core (e : Event) : option Event :=
  match e with
  | EPrint _ | ENewSummaryWriter | ENewLossPlot _ _ _ _ _ | EAddScalars _ _
  | EPlotAddItem | EPlotAddTestItem => None
  | _ => Some e
  end.

(** Two computations that, from every state, end alike and make the same
    [core] calls. *)
Definition agree {A} (m m' : M A) : Prop :=
  forall s,
    outcome (m s) = outcome (m' s)
    /\ final (m s) = final (m' s)
    /\ collect core (trace (m s)) = collect core (trace (m' s)).

(** *** Binary64 rates *)

(** The rational number a finite binary64 number stands for. *)
Definition exact_value (x : float) : option Q :=
  match Prim2SF x with
  | S754_zero _ => Some 0%Q
  | S754_finite s m e =>
      Some ((if s then -1 else 1) * inject_Z (Z.pos m) * 2 ^ e)%Q
  | _ => None
  end.

(** Does the rate fall at each of the next [n] scheduler steps. *)
Fixpoint falls (q : float) (n : nat) : bool :=
  match n with
  | O => true
  | S k => PrimFloat.ltb (PrimFloat.mul q gamma) q
           && falls (PrimFloat.mul q gamma) k
  end.

(** Is the rate below [top] after each of the next [n] scheduler steps. *)
Fixpoint stays_below (top q : float) (n : nat) : bool :=
  match n with
  | O => true
  | S k => PrimFloat.ltb (PrimFloat.mul q gamma) top
           && stays_below top (PrimFloat.mul q gamma) k
  end.

(** The number of scheduler steps after which the rate, started at [lr0],
    no longer changes, and the subnormal value (about 1.2e-322) it keeps. *)
Definition plateau : nat := Z.to_nat 36342.
Definition floor_rate : float := 0x1.8p-1070%float.

(** ** A sample world and command line, for evaluation *)

Module Demo.

Definition loaders (d : Dataset) (a : Args) : Loader * Loader :=
  let s := match d with MNIST => 28 | DSprites => 64 end in
  ({| batches := [[batch_size a; 1; s; s]; [batch_size a; 1; s; s]];
      sampler_len := 2 * batch_size a; dataset_len := 2 * batch_size a |},
   {| batches := [[batch_size a; 1; s; s]];
      sampler_len := batch_size a; dataset_len := batch_size a |}).

Definition world : World :=
  {| cuda_available := false;
     path_exists := fun _ => false;
     has_model := fun _ name => ((name =? "vae") || (name =? "beta_vae"))%string;
     load_data := loaders;
     recon_shape := fun m s =>
       match s with
       | [] => []
       | b :: _ => [b; m_img_size m * m_img_size m]
       end;
     decode_shape := fun m s =>
       match s with
       | [] => []
       | b :: _ => [b; m_img_size m * m_img_size m]
       end;
     str_float := fun _ => "4.0" |}.

Definition args : Args :=
  {| data := "MNIST"; model_name := "vae"; z_dim := 2; beta := Py.Float 4;
     batch_size := 16; epochs := 2; log_interval := 1; seed := 1;
     no_cuda := false; tensorboard := false |}.

Fixpoint has_slash (s : string) : bool :=
  match s with
  | EmptyString => false
  | String c r => (c =? "/")%char || has_slash r
  end.

(** A working directory without sub-directories: creating a directory
    under a parent that does not exist fails. *)
Definition flat : Mkdir :=
  fun p => if has_slash p then Some FileNotFoundError else None.

(** A test set of ten datapoints, loaded with a larger batch size. *)
Definition short_env : Env :=
  {| dataset := MNIST; img_size := 28;
     train_loader := fst (loaders MNIST args);
     test_loader := {| batches := [[10; 1; 28; 28]]; sampler_len := 10;
                       dataset_len := 10 |} |}.

End Demo.

(** * Properties *)

(** ** Laws of the monad *)

Section MonadFacts.

Context {A B : Type}.
Implicit Types (m : M A) (f : A -> M B) (s : St).

Lemma trace_bind m f s :
  trace (bind m f s) =
  trace (m s) ++ match outcome (m s) with
                 | Ok a => trace (f a (final (m s)))
                 | Raise _ => []
                 end.
Proof.
  unfold bind, trace, outcome, final.
  destruct (m s) as [[t1 s1] [a|e]]; simpl.
  - destruct (f a s1) as [[t2 s2] o]; reflexivity.
  - now rewrite app_nil_r.
Qed.

Lemma outcome_bind m f s :
  outcome (bind m f s) =
  match outcome (m s) with
  | Ok a => outcome (f a (final (m s)))
  | Raise e => Raise e
  end.
Proof.
  unfold bind, outcome, final.
  destruct (m s) as [[t1 s1] [a|e]]; simpl; auto.
  destruct (f a s1) as [[t2 s2] o]; reflexivity.
Qed.

Lemma final_bind m f s :
  final (bind m f s) =
  match outcome (m s) with
  | Ok a => final (f a (final (m s)))
  | Raise e => final (m s)
  end.
Proof.
  unfold bind, outcome, final.
  destruct (m s) as [[t1 s1] [a|e]]; simpl; auto.
  destruct (f a s1) as [[t2 s2] o]; reflexivity.
Qed.

(** A sequence that returns has both halves return. *)
Lemma bind_ok m f s b :
  outcome (bind m f s) = Ok b ->
  exists a, outcome (m s) = Ok a /\ outcome (f a (final (m s))) = Ok b.
Proof.
  rewrite outcome_bind. destruct (outcome (m s)) as [a|e]; [eauto|discriminate].
Qed.

End MonadFacts.

Lemma bind_raise {A B} (m : M A) (f : A -> M B) s t s' e :
  m s = (t, s', Raise e) -> bind m f s = (t, s', Raise e).
Proof. intro E. unfold bind. now rewrite E. Qed.

Lemma trace_emit_then {B} (e : Event) (k : M B) s :
  trace (bind (emit e) (fun _ => k) s) = e :: trace (k s).
Proof. now rewrite trace_bind. Qed.

Lemma outcome_emit_then {B} (e : Event) (k : M B) s :
  outcome (bind (emit e) (fun _ => k) s) = outcome (k s).
Proof. now rewrite outcome_bind. Qed.

Lemma final_emit_then {B} (e : Event) (k : M B) s :
  final (bind (emit e) (fun _ => k) s) = final (k s).
Proof. now rewrite final_bind. Qed.

Lemma collect_app {X Y} (f : X -> option Y) (l1 l2 : list X) :
  collect f (l1 ++ l2) = collect f l1 ++ collect f l2.
Proof.
  induction l1 as [|x l1 IH]; simpl; auto.
  destruct (f x); simpl; now rewrite IH.
Qed.

Lemma collect_none {X Y} (f : X -> option Y) (l : list X) :
  Forall (fun x => f x = None) l -> collect f l = [].
Proof.
  induction 1 as [|x l Hx _ IH]; simpl; auto. now rewrite Hx.
Qed.

Lemma collect_Forall {X Y} (f : X -> option Y) (P : Y -> Prop) (l : list X) :
  Forall (fun x => forall y, f x = Some y -> P y) l -> Forall P (collect f l).
Proof.
  induction 1 as [|x l Hx _ IH]; simpl; auto.
  destruct (f x) eqn:E; auto.
Qed.

(** ** Trace invariants: what a computation can emit, whatever it does *)

Section Always.

Variable P : Event -> Prop.

Lemma always_ret {A} (a : A) : always P (ret a).
Proof. intro s; constructor. Qed.

Lemma always_raise {A} (e : Exn) : always P (@raise A e).
Proof. intro s; constructor. Qed.

Lemma always_get : always P get.
Proof. intro s; constructor. Qed.

Lemma always_put s' : always P (put s').
Proof. intro s; constructor. Qed.

Lemma always_lift {A} (o : Outcome A) : always P (lift o).
Proof. destruct o; [apply always_ret|apply always_raise]. Qed.

Lemma always_emit e : P e -> always P (emit e).
Proof. intros H s; repeat constructor; exact H. Qed.

Lemma always_bind {A B} (m : M A) (f : A -> M B) :
  always P m -> (forall a, always P (f a)) -> always P (bind m f).
Proof.
  intros Hm Hf s. rewrite trace_bind. apply Forall_app; split; [apply Hm|].
  destruct (outcome (m s)); [apply Hf|constructor].
Qed.

Lemma always_for_enumerate {X} (body : Z -> X -> M unit) :
  (forall i x, always P (body i x)) ->
  forall xs i, always P (for_enumerate i xs body).
Proof.
  intros Hb xs; induction xs as [|x xs IH]; intro i; simpl.
  - apply always_ret.
  - apply always_bind; auto.
Qed.

Lemma always_for_each {X} (body : X -> M unit) :
  (forall x, always P (body x)) -> forall xs, always P (for_each xs body).
Proof.
  intros Hb xs; induction xs as [|x xs IH]; simpl.
  - apply always_ret.
  - apply always_bind; auto.
Qed.

Lemma always_divide_by b : always P (divide_by b).
Proof. unfold divide_by; destruct (b =? 0); [apply always_raise|apply always_ret]. Qed.

Lemma always_py_mod x b : always P (py_mod x b).
Proof. unfold py_mod; destruct (b =? 0); [apply always_raise|apply always_ret]. Qed.

End Always.

(** Breaks a goal [always P m] down along the structure of [m]; what is left
    are the obligations [P e] for the emitted events. *)
Ltac always_step :=
  match goal with
  | |- always _ (bind _ _) => apply always_bind; [|intro]
  | |- always _ (ret _) => apply always_ret
  | |- always _ (raise _) => apply always_raise
  | |- always _ get => apply always_get
  | |- always _ (put _) => apply always_put
  | |- always _ (lift _) => apply always_lift
  | |- always _ (divide_by _) => apply always_divide_by
  | |- always _ (py_mod _ _) => apply always_py_mod
  | |- always _ (emit _) => apply always_emit
  | |- always _ (for_enumerate _ _ _) => apply always_for_enumerate; do 2 intro
  | |- always _ (for_each _ _) => apply always_for_each; intro
  | |- always _ (if ?c then _ else _) => destruct c
  end.

Ltac always_tac := repeat always_step.

Ltac unfold_script :=
  unfold main, after_dispatch, setup, epoch_loop, parse_args, make_dir,
    load_dataset,
    lookup_model, report_sizes, build_model, build_plots, epoch_body,
    train, train_batch, optimizer_step, scheduler_step, plot_train,
    log_train, test, test_batch, save_reconstruction, report_lr,
    sample_prior, save_checkpoint, sample_latent_space.

(** ** The dataset dispatch *)

Lemma lower_examples :
  Py.lower "MNIST" = "mnist" /\ Py.lower "mnist" = "mnist" /\
  Py.lower "dSprites" = "dsprites" /\ Py.lower "DSPRITES" = "dsprites".
Proof. repeat split. Qed.

Lemma prologue_run w a s :
  bind (parse_args w a) (fun _ => make_dir w a) s =
  ((EManualSeed (seed a)
      :: EPrint (PRunningOnGPU (negb (no_cuda a) && cuda_available w))
      :: EPrint (PArguments a)
      :: (if path_exists w (dirName w a)
          then [EPrint (PDirExists (dirName w a))]
          else [EMkdir (dirName w a); EPrint (PDirCreated (dirName w a))])),
   s, Ok tt).
Proof.
  unfold parse_args, make_dir. destruct (path_exists w (dirName w a)); reflexivity.
Qed.

Lemma load_dataset_unsupported w a s :
  Py.lower (data a) <> "mnist" -> Py.lower (data a) <> "dsprites" ->
  load_dataset w a s =
  ([], s, Raise (Exception "Dataset not found. Try: MNIST, dSprites")).
Proof.
  intros H1 H2. unfold load_dataset.
  apply String.eqb_neq in H1, H2. now rewrite H1, H2.
Qed.

(** C9. The dispatch compares the lowercased name: every argument whose
    lowercase form is ['mnist'] selects the MNIST loaders and image size 28,
    every argument whose lowercase form is ['dsprites'] selects the dSprites
    loaders and image size 64 (given that the model name is a key of that
    module's [models]); such an argument never meets the 'Dataset not
    found' exception; and ['MNIST'], ['mnist'], ['dSprites'], ['DSPRITES']
    are such arguments, while the message itself spells the names
    'MNIST, dSprites'. *)
Theorem C9_dataset_match_case_insensitive w a s :
  (Py.lower (data a) = "mnist" ->
   has_model w MNIST (model_name a) = true ->
   load_dataset w a s =
   ([ELoad MNIST (batch_size a)], s,
    Ok {| dataset := MNIST; img_size := 28;
          train_loader := fst (load_data w MNIST a);
          test_loader := snd (load_data w MNIST a) |}))
  /\ (Py.lower (data a) = "dsprites" ->
      has_model w DSprites (model_name a) = true ->
      load_dataset w a s =
      ([ELoad DSprites (batch_size a)], s,
       Ok {| dataset := DSprites; img_size := 64;
             train_loader := fst (load_data w DSprites a);
             test_loader := snd (load_data w DSprites a) |}))
  /\ (Py.lower (data a) = "mnist" \/ Py.lower (data a) = "dsprites" ->
      forall msg, outcome (load_dataset w a s) <> Raise (Exception msg))
  /\ (forall name, In name ["MNIST"; "mnist"] -> Py.lower name = "mnist")
  /\ (forall name, In name ["dSprites"; "DSPRITES"; "dsprites"] ->
      Py.lower name = "dsprites")
  /\ (Py.lower (data a) <> "mnist" -> Py.lower (data a) <> "dsprites" ->
      outcome (load_dataset w a s) =
      Raise (Exception "Dataset not found. Try: MNIST, dSprites")).
Proof.
  repeat split.
  - intros E H. unfold load_dataset, lookup_model. rewrite E, H. reflexivity.
  - intros E H. unfold load_dataset, lookup_model. rewrite E, H. reflexivity.
  - intros [E|E] msg; unfold load_dataset, lookup_model; rewrite E; simpl.
    + destruct (has_model w MNIST (model_name a)); discriminate.
    + destruct (has_model w DSprites (model_name a)); discriminate.
  - simpl. intros name [<-|[<-|[]]]; reflexivity.
  - simpl. intros name [<-|[<-|[<-|[]]]]; reflexivity.
  - intros H1 H2. now rewrite load_dataset_unsupported.
Qed.

Lemma C9_witness :
  load_dataset Demo.world Demo.args boot =
  ([ELoad MNIST 16], boot,
   Ok {| dataset := MNIST; img_size := 28;
         train_loader := fst (Demo.loaders MNIST Demo.args);
         test_loader := snd (Demo.loaders MNIST Demo.args) |}).
Proof.
  apply (proj1 (C9_dataset_match_case_insensitive Demo.world Demo.args boot));
    reflexivity.
Defined.

(** ** Where files go *)




(** ** The learning-rate schedule and the flags *)

Lemma main_schedule_fixed w a :
  always (fun e => (forall q, initial_rate_of e = Some q -> q = lr0)
                   /\ (forall g, decay_of e = Some g -> g = gamma))
         (main w a).
Proof.
  unfold_script; always_tac; simpl; split; intros q H; try discriminate;
    injection H as <-; reflexivity.
Qed.

Lemma schedule_fixed w a p :
  schedule (trace (run w a)) = Some p -> p = (lr0, gamma).
Proof.
  unfold schedule. intro H.
  pose proof (main_schedule_fixed w a boot) as F. fold (run w a) in F.
  assert (F1 : Forall (fun q => q = lr0)
                 (collect initial_rate_of (trace (run w a)))).
  { apply collect_Forall. eapply Forall_impl; [|exact F]. intros e [H1 _]; exact H1. }
  assert (F2 : Forall (fun g => g = gamma)
                 (collect decay_of (trace (run w a)))).
  { apply collect_Forall. eapply Forall_impl; [|exact F]. intros e [_ H2]; exact H2. }
  destruct (collect initial_rate_of (trace (run w a))) as [|q ?]; [discriminate|].
  destruct (collect decay_of (trace (run w a))) as [|g ?]; [discriminate|].
  inversion F1; inversion F2; subst. now injection H as <-.
Qed.

(** C2, as stated, fails: no two invocations, in any two worlds, set up
    different learning-rate schedules. *)
Lemma C2_schedule_not_flag_controlled :
  ~ (exists w1 a1 w2 a2 p1 p2,
        schedule (trace (run w1 a1)) = Some p1
        /\ schedule (trace (run w2 a2)) = Some p2
        /\ p1 <> p2).
Proof.
  intros (w1 & a1 & w2 & a2 & p1 & p2 & H1 & H2 & N).
  apply schedule_fixed in H1, H2. congruence.
Qed.

(** C2, amended. Dataset choice, model variant, latent dimension, beta
    weight, batch size, epoch count and the TensorBoard-vs-plot toggle are
    each read from the command line: changing that one flag changes what
    the run does (the dataset loaded, the model built, the loss weight, the
    loader's batch size, the number of epochs, the plotting sink).  The
    learning-rate schedule is not: whenever a run sets one up, it is Adam
    at 1e-3 with decay 0.98 per epoch. *)
Theorem C2_flags_and_fixed_schedule :
  (forall w a p, schedule (trace (run w a)) = Some p -> p = (lr0, gamma))
  /\ lr0 = 0.001%float /\ gamma = 0.98%float
  /\ collect load_of (trace (run Demo.world (Flag.set_data "dSprites" Demo.args)))
     <> collect load_of (trace (run Demo.world Demo.args))
  /\ collect model_of (trace (run Demo.world (Flag.set_model_name "beta_vae" Demo.args)))
     <> collect model_of (trace (run Demo.world Demo.args))
  /\ collect model_of (trace (run Demo.world (Flag.set_z_dim 3 Demo.args)))
     <> collect model_of (trace (run Demo.world Demo.args))
  /\ collect loss_weight_of (trace (run Demo.world (Flag.set_beta (Py.Int 1) Demo.args)))
     <> collect loss_weight_of (trace (run Demo.world Demo.args))
  /\ collect load_of (trace (run Demo.world (Flag.set_batch_size 32 Demo.args)))
     <> collect load_of (trace (run Demo.world Demo.args))
  /\ learning_rates (trace (run Demo.world (Flag.set_epochs 3 Demo.args)))
     <> learning_rates (trace (run Demo.world Demo.args))
  /\ collect plot_sink (trace (run Demo.world (Flag.set_tensorboard true Demo.args)))
     <> collect plot_sink (trace (run Demo.world Demo.args)).
Proof.
  split; [exact schedule_fixed|].
  repeat split; vm_compute; discriminate.
Qed.

Lemma C2_witness :
  schedule (trace (run Demo.world Demo.args)) = Some (0.001, 0.98)%float
  /\ (0.001, 0.98)%float = (lr0, gamma).
Proof.
  split; [reflexivity|].
  apply (proj1 C2_flags_and_fixed_schedule Demo.world Demo.args). reflexivity.
Defined.

(** ** State that a computation leaves alone *)

Section Stable.

Context {X : Type} (f : St -> X).

Lemma stable_ret {A} (a : A) : stable f (ret a).
Proof. intro s; reflexivity. Qed.

Lemma stable_raise {A} (e : Exn) : stable f (@raise A e).
Proof. intro s; reflexivity. Qed.

Lemma stable_get : stable f get.
Proof. intro s; reflexivity. Qed.

Lemma stable_emit e : stable f (emit e).
Proof. intro s; reflexivity. Qed.

Lemma stable_lift {A} (o : Outcome A) : stable f (lift o).
Proof. destruct o; intro s; reflexivity. Qed.

Lemma stable_bind {A B} (m : M A) (k : A -> M B) :
  stable f m -> (forall a, stable f (k a)) -> stable f (bind m k).
Proof.
  intros Hm Hk s. rewrite final_bind.
  destruct (outcome (m s)); [rewrite Hk|]; apply Hm.
Qed.

Lemma stable_for_enumerate {Y} (body : Z -> Y -> M unit) :
  (forall i x, stable f (body i x)) ->
  forall xs i, stable f (for_enumerate i xs body).
Proof.
  intros Hb xs; induction xs as [|x xs IH]; intro i; simpl.
  - apply stable_ret.
  - apply stable_bind; auto.
Qed.

Lemma stable_for_each {Y} (body : Y -> M unit) :
  (forall x, stable f (body x)) -> forall xs, stable f (for_each xs body).
Proof.
  intros Hb xs; induction xs as [|x xs IH]; simpl.
  - apply stable_ret.
  - apply stable_bind; auto.
Qed.

Lemma stable_divide_by b : stable f (divide_by b).
Proof. unfold divide_by; destruct (b =? 0); [apply stable_raise|apply stable_ret]. Qed.

Lemma stable_py_mod x b : stable f (py_mod x b).
Proof. unfold py_mod; destruct (b =? 0); [apply stable_raise|apply stable_ret]. Qed.

End Stable.

Ltac stable_step :=
  match goal with
  | |- stable _ (bind _ _) => apply stable_bind; [|intro]
  | |- stable _ (ret _) => apply stable_ret
  | |- stable _ (raise _) => apply stable_raise
  | |- stable _ get => apply stable_get
  | |- stable _ (lift _) => apply stable_lift
  | |- stable _ (divide_by _) => apply stable_divide_by
  | |- stable _ (py_mod _ _) => apply stable_py_mod
  | |- stable _ (emit _) => apply stable_emit
  | |- stable _ (for_enumerate _ _ _) => apply stable_for_enumerate; do 2 intro
  | |- stable _ (for_each _ _) => apply stable_for_each; intro
  | |- stable _ (if ?c then _ else _) => destruct c
  end.

Ltac stable_tac := repeat stable_step.

(** ** Loops that return *)

Lemma for_enumerate_ok {X Y} (pi : Event -> option Y) (g : Z -> X -> list Y)
    (body : Z -> X -> M unit) :
  (forall i x s, outcome (body i x s) = Ok tt ->
                 collect pi (trace (body i x s)) = g i x) ->
  forall xs i s,
    outcome (for_enumerate i xs body s) = Ok tt ->
    collect pi (trace (for_enumerate i xs body s)) = enum_flat g i xs.
Proof.
  intros Hb xs; induction xs as [|x xs IH]; intros i s H; simpl in *.
  - reflexivity.
  - apply bind_ok in H. destruct H as ([] & H1 & H2).
    rewrite trace_bind, collect_app, H1, (Hb _ _ _ H1), (IH _ _ H2).
    reflexivity.
Qed.

Lemma for_each_ok {X Y} (pi : Event -> option Y) (g : X -> list Y)
    (body : X -> M unit) :
  (forall x s, outcome (body x s) = Ok tt ->
               collect pi (trace (body x s)) = g x) ->
  forall xs s,
    outcome (for_each xs body s) = Ok tt ->
    collect pi (trace (for_each xs body s)) = flat_map g xs.
Proof.
  intros Hb xs; induction xs as [|x xs IH]; intros s H; simpl in *.
  - reflexivity.
  - apply bind_ok in H. destruct H as ([] & H1 & H2).
    rewrite trace_bind, collect_app, H1, (Hb _ _ H1), (IH _ H2).
    reflexivity.
Qed.

Lemma enum_flat_const {X Y} (g : X -> list Y) (xs : list X) (i : Z) :
  enum_flat (fun _ => g) i xs = flat_map g xs.
Proof.
  revert i; induction xs as [|x xs IH]; intro i; simpl; [|rewrite IH]; reflexivity.
Qed.

Lemma enum_flat_nil {X Y} (g : Z -> X -> list Y) (xs : list X) (i : Z) :
  (forall j x, i <= j -> g j x = []) -> enum_flat g i xs = [].
Proof.
  revert i; induction xs as [|x xs IH]; intros i H; simpl; auto.
  rewrite H by lia. apply IH. intros; apply H; lia.
Qed.

(** ** One training epoch *)

Lemma optimizer_step_run s :
  optimizer_step s =
  ([EOptimizerStep],
   {| lr := lr s; last_epoch := last_epoch s; steps := S (steps s) |}, Ok tt).
Proof. reflexivity. Qed.

Lemma scheduler_step_run s :
  scheduler_step s =
  ([ESchedulerStep],
   {| lr := PrimFloat.mul (lr s) gamma; last_epoch := last_epoch s + 1;
      steps := steps s |}, Ok tt).
Proof. reflexivity. Qed.

Lemma report_lr_run s :
  report_lr s = ([EPrint (PLearningRate (lr s))], s, Ok tt).
Proof. reflexivity. Qed.

Lemma plot_log_quiet a env epoch i data :
  always (fun e => computation e = None /\ image_file e = None
                   /\ learning_rate_of e = None /\ checkpoint_of e = None
                   /\ epoch_of e = None)
         (plot_train a epoch i ;; log_train a env epoch i data).
Proof. unfold_script; always_tac; simpl; auto 6. Qed.

Lemma plot_log_stable a env epoch i data :
  stable (fun s => s) (plot_train a epoch i ;; log_train a env epoch i data).
Proof. unfold_script; stable_tac. Qed.

Lemma train_batch_trace a env epoch i data s :
  trace (train_batch a env epoch i data s) =
  batch_step a data
  ++ trace ((plot_train a epoch i ;; log_train a env epoch i data)
              {| lr := lr s; last_epoch := last_epoch s;
                 steps := S (steps s) |}).
Proof.
  unfold train_batch, batch_step.
  rewrite !trace_emit_then, trace_bind, optimizer_step_run. reflexivity.
Qed.

Lemma train_batch_computations a env epoch i data s :
  computations (trace (train_batch a env epoch i data s)) = batch_step a data.
Proof.
  rewrite train_batch_trace. unfold computations. rewrite collect_app.
  rewrite (collect_none computation (trace _)).
  - now rewrite app_nil_r.
  - eapply Forall_impl; [|apply plot_log_quiet]. now intros e [H _].
Qed.

Lemma train_batch_lr a env epoch i data : stable lr (train_batch a env epoch i data).
Proof.
  intro s. unfold train_batch.
  rewrite !final_emit_then, final_bind, optimizer_step_run.
  cbn [outcome snd].
  pose proof (plot_log_stable a env epoch i data
                {| lr := lr s; last_epoch := last_epoch s;
                   steps := S (steps s) |}) as E.
  cbv beta in E. cbn [final fst snd] in *. now rewrite E.
Qed.

Lemma train_batch_steps a env epoch i data s :
  steps (final (train_batch a env epoch i data s)) = S (steps s).
Proof.
  unfold train_batch.
  rewrite !final_emit_then, final_bind, optimizer_step_run.
  cbn [outcome snd].
  pose proof (plot_log_stable a env epoch i data
                {| lr := lr s; last_epoch := last_epoch s;
                   steps := S (steps s) |}) as E.
  cbv beta in E. cbn [final fst snd] in *. now rewrite E.
Qed.

Lemma train_batch_no_epoch a env epoch i data :
  always (fun e => epoch_of e = None) (train_batch a env epoch i data).
Proof. unfold_script; always_tac; reflexivity. Qed.

Lemma for_enumerate_steps {X} (body : Z -> X -> M unit) :
  (forall i x s, steps (final (body i x s)) = S (steps s)) ->
  forall xs i s,
    outcome (for_enumerate i xs body s) = Ok tt ->
    steps (final (for_enumerate i xs body s)) = (steps s + length xs)%nat.
Proof.
  intros Hb xs; induction xs as [|x xs IH]; intros i s H; simpl in *.
  - cbn [final ret fst snd]. lia.
  - apply bind_ok in H. destruct H as ([] & H1 & H2).
    rewrite final_bind, H1, (IH _ _ H2), Hb. lia.
Qed.

Lemma train_quiet a env epoch :
  always (fun e => image_file e = None /\ learning_rate_of e = None
                   /\ checkpoint_of e = None)
         (train a env epoch).
Proof. unfold_script; always_tac; simpl; auto. Qed.

(** What is left of [train] after the batch loop. *)
Lemma train_tail_run env epoch s :
  outcome ((scheduler_step ;; divide_by (sampler_len (train_loader env)) ;;
            emit (EPrint (PEpochAverage epoch))) s) = Ok tt ->
  (scheduler_step ;; divide_by (sampler_len (train_loader env)) ;;
   emit (EPrint (PEpochAverage epoch))) s =
  ([ESchedulerStep; EPrint (PEpochAverage epoch)],
   {| lr := PrimFloat.mul (lr s) gamma; last_epoch := last_epoch s + 1;
      steps := steps s |}, Ok tt).
Proof.
  unfold divide_by. destruct (sampler_len (train_loader env) =? 0).
  - discriminate.
  - reflexivity.
Qed.

Lemma train_ok a env epoch s :
  outcome (train a env epoch s) = Ok tt ->
  computations (trace (train a env epoch s)) =
    ESetTrain :: flat_map (batch_step a) (batches (train_loader env))
      ++ [ESchedulerStep]
  /\ epochs_run (trace (train a env epoch s)) = [epoch]
  /\ lr (final (train a env epoch s)) = PrimFloat.mul (lr s) gamma
  /\ steps (final (train a env epoch s)) =
     (steps s + length (batches (train_loader env)))%nat.
Proof.
  unfold train. rewrite outcome_emit_then, trace_emit_then, final_emit_then.
  intro H. apply bind_ok in H. destruct H as ([] & H1 & H2).
  rewrite trace_bind, final_bind, H1.
  rewrite (train_tail_run _ _ _ H2). cbn [trace final fst snd lr steps].
  split; [|split; [|split]].
  - unfold computations in *. cbn [collect computation]. f_equal.
    rewrite collect_app. f_equal.
    rewrite (for_enumerate_ok computation (fun _ => batch_step a)); auto.
    + apply enum_flat_const.
    + intros; apply train_batch_computations.
  - unfold epochs_run. cbn [collect epoch_of]. rewrite collect_app.
    rewrite (collect_none epoch_of (trace _)); [reflexivity|].
    apply always_for_enumerate. intros; apply train_batch_no_epoch.
  - f_equal.
    apply (stable_for_enumerate lr); intros; apply train_batch_lr.
  - apply for_enumerate_steps; auto. intros; apply train_batch_steps.
Qed.

(** ** One evaluation pass *)

Lemma save_reconstruction_cases w a env epoch data s :
  (exists e, save_reconstruction w a env epoch data s = ([], s, Raise e))
  \/ (exists shape n,
         save_reconstruction w a env epoch data s =
         ([ESaveImage (reconstruction_path w a epoch) shape n], s, Ok tt)).
Proof.
  unfold save_reconstruction, bind.
  destruct (Tensor.size0 data) as [d0|]; simpl; [|eauto].
  destruct (Tensor.view _ _) as [r|]; simpl; [|eauto].
  destruct (Tensor.take _ data) as [top|]; simpl; [|eauto].
  destruct (Tensor.take _ r) as [bottom|]; simpl; [|eauto].
  destruct (Tensor.cat top bottom) as [c|]; simpl; eauto.
Qed.

Lemma test_quiet w a env epoch :
  always (fun e => learning_rate_of e = None /\ checkpoint_of e = None
                   /\ epoch_of e = None)
         (test w a env epoch).
Proof. unfold_script; always_tac; simpl; auto. Qed.

Lemma test_stable w a env epoch : stable (fun s => s) (test w a env epoch).
Proof. unfold_script; stable_tac. Qed.

Lemma test_batch_ok w a env epoch i data s :
  outcome (test_batch w a env epoch i data s) = Ok tt ->
  computations (trace (test_batch w a env epoch i data s)) = eval_step a data
  /\ images_written (trace (test_batch w a env epoch i data s)) =
     if i =? 0 then [reconstruction_path w a epoch] else [].
Proof.
  unfold test_batch.
  rewrite !outcome_emit_then, !trace_emit_then.
  destruct (i =? 0).
  - destruct (save_reconstruction_cases w a env epoch data s)
      as [(e & E)|(shape & n & E)]; rewrite E; [discriminate|].
    intros _; split; reflexivity.
  - intros _; split; reflexivity.
Qed.

(** What is left of [test] after the batch loop. *)
Lemma test_tail_run a env epoch s :
  outcome ((divide_by (sampler_len (test_loader env)) ;;
            (if tensorboard a
             then emit (EAddScalars "test_data"
                          (epoch * Z.of_nat (length (batches (train_loader env)))))
             else emit EPlotAddTestItem) ;;
            emit (EPrint PTestLoss)) s) = Ok tt ->
  forall Y (pi : Event -> option Y),
    pi (EPrint PTestLoss) = None -> pi EPlotAddTestItem = None ->
    (forall n, pi (EAddScalars "test_data" n) = None) ->
    collect pi (trace ((divide_by (sampler_len (test_loader env)) ;;
            (if tensorboard a
             then emit (EAddScalars "test_data"
                          (epoch * Z.of_nat (length (batches (train_loader env)))))
             else emit EPlotAddTestItem) ;;
            emit (EPrint PTestLoss)) s)) = [].
Proof.
  intros _ Y pi H1 H2 H3. apply collect_none.
  assert (Q : always (fun e => pi e = None)
                (divide_by (sampler_len (test_loader env)) ;;
                 (if tensorboard a
                  then emit (EAddScalars "test_data"
                          (epoch * Z.of_nat (length (batches (train_loader env)))))
                  else emit EPlotAddTestItem) ;;
                 emit (EPrint PTestLoss)))
    by (always_tac; auto).
  apply Q.
Qed.

Lemma test_ok w a env epoch s :
  outcome (test w a env epoch s) = Ok tt ->
  computations (trace (test w a env epoch s)) =
    ESetEval :: flat_map (eval_step a) (batches (test_loader env))
  /\ images_written (trace (test w a env epoch s)) =
     match batches (test_loader env) with
     | [] => []
     | _ :: _ => [reconstruction_path w a epoch]
     end.
Proof.
  unfold test. rewrite outcome_emit_then, trace_emit_then.
  intro H. apply bind_ok in H. destruct H as ([] & H1 & H2).
  rewrite trace_bind, H1.
  unfold computations, images_written in *.
  cbn [collect computation image_file]. rewrite !collect_app.
  rewrite !(test_tail_run _ _ _ _ H2) by reflexivity.
  rewrite !app_nil_r. split.
  - f_equal.
    rewrite (for_enumerate_ok computation (fun _ => eval_step a)); auto.
    + apply enum_flat_const.
    + intros i x s0 H0. apply (test_batch_ok w a env epoch i x s0 H0).
  - rewrite (for_enumerate_ok image_file
               (fun i _ => if i =? 0 then [reconstruction_path w a epoch] else []));
      auto.
    + destruct (batches (test_loader env)) as [|d ds]; simpl; auto.
      rewrite enum_flat_nil; auto.
      intros j _ Hj. destruct (Z.eqb_spec j 0); [lia|reflexivity].
    + intros i x s0 H0. apply (test_batch_ok w a env epoch i x s0 H0).
Qed.

(** ** One epoch, and the loop over epochs *)

Lemma sample_prior_ok w a env epoch s :
  outcome (sample_prior w a env epoch s) = Ok tt ->
  exists shape,
    sample_prior w a env epoch s =
    ([EDecode (Randn 64 (z_dim a)); ESaveImage (sample_path w a epoch) shape 8],
     s, Ok tt).
Proof.
  unfold sample_prior, bind.
  destruct (z_dim a <? 0); simpl; [discriminate|].
  destruct (Tensor.view _ _) as [shape|]; simpl; [eauto|discriminate].
Qed.

Lemma epoch_body_ok w a env epoch s :
  outcome (epoch_body w a env epoch s) = Ok tt ->
  exists shape,
    outcome (train a env epoch s) = Ok tt
    /\ outcome (test w a env epoch (final (train a env epoch s))) = Ok tt
    /\ trace (epoch_body w a env epoch s) =
       trace (train a env epoch s)
       ++ trace (test w a env epoch (final (train a env epoch s)))
       ++ [EPrint (PLearningRate (lr (final (train a env epoch s))));
           EDecode (Randn 64 (z_dim a));
           ESaveImage (sample_path w a epoch) shape 8]
    /\ final (epoch_body w a env epoch s) = final (train a env epoch s).
Proof.
  unfold epoch_body. intro H.
  apply bind_ok in H. destruct H as ([] & H1 & H2).
  apply bind_ok in H2. destruct H2 as ([] & H2 & H3).
  pose proof (test_stable w a env epoch (final (train a env epoch s))) as T.
  cbv beta in T.
  rewrite outcome_bind, report_lr_run in H3. cbn [outcome snd final fst] in H3.
  rewrite T in H3.
  destruct (sample_prior_ok _ _ _ _ _ H3) as (shape & E).
  exists shape. split; [assumption|]. split; [assumption|].
  rewrite !trace_bind, !final_bind, H1, H2, T, report_lr_run.
  cbn [outcome trace final fst snd]. rewrite E. cbn [trace final fst snd].
  split; reflexivity.
Qed.

Lemma epoch_body_projections w a env epoch s :
  outcome (epoch_body w a env epoch s) = Ok tt ->
  computations (trace (epoch_body w a env epoch s)) = epoch_computations a env epoch
  /\ images_written (trace (epoch_body w a env epoch s)) =
     match batches (test_loader env) with
     | [] => []
     | _ :: _ => [reconstruction_path w a epoch]
     end ++ [sample_path w a epoch]
  /\ checkpoints (trace (epoch_body w a env epoch s)) = []
  /\ learning_rates (trace (epoch_body w a env epoch s))
     = [PrimFloat.mul (lr s) gamma]
  /\ epochs_run (trace (epoch_body w a env epoch s)) = [epoch]
  /\ lr (final (epoch_body w a env epoch s)) = PrimFloat.mul (lr s) gamma
  /\ steps (final (epoch_body w a env epoch s)) =
     (steps s + length (batches (train_loader env)))%nat.
Proof.
  intro H. destruct (epoch_body_ok _ _ _ _ _ H) as (shape & H1 & H2 & Et & Ef).
  destruct (train_ok _ _ _ _ H1) as (Tc & Te & Tl & Ts).
  destruct (test_ok _ _ _ _ _ H2) as (Vc & Vi).
  pose proof (train_quiet a env epoch s) as Tq.
  pose proof (test_quiet w a env epoch (final (train a env epoch s))) as Vq.
  rewrite Et, Ef.
  unfold computations, images_written, checkpoints, learning_rates,
    epochs_run in *.
  rewrite !collect_app, Tc, Vc, Vi, Tl, Te, Ts.
  rewrite (collect_none image_file (trace (train a env epoch s)))
    by (eapply Forall_impl; [|exact Tq]; now intros e (? & ? & ?)).
  rewrite (collect_none checkpoint_of (trace (train a env epoch s)))
    by (eapply Forall_impl; [|exact Tq]; now intros e (? & ? & ?)).
  rewrite (collect_none learning_rate_of (trace (train a env epoch s)))
    by (eapply Forall_impl; [|exact Tq]; now intros e (? & ? & ?)).
  rewrite (collect_none checkpoint_of (trace (test w a env epoch _)))
    by (eapply Forall_impl; [|exact Vq]; now intros e (? & ? & ?)).
  rewrite (collect_none learning_rate_of (trace (test w a env epoch _)))
    by (eapply Forall_impl; [|exact Vq]; now intros e (? & ? & ?)).
  rewrite (collect_none epoch_of (trace (test w a env epoch _)))
    by (eapply Forall_impl; [|exact Vq]; now intros e (? & ? & ?)).
  cbn [collect computation image_file checkpoint_of learning_rate_of
         epoch_of app].
  unfold epoch_computations.
  repeat split; reflexivity.
Qed.

Lemma decay_n_shift q n :
  decay_n (PrimFloat.mul q gamma) n = decay_n q (S n).
Proof.
  induction n as [|n IH]; cbn [decay_n] in *; [reflexivity|now rewrite IH].
Qed.

Lemma epochs_rates w a env es : forall s,
  outcome (for_each es (epoch_body w a env) s) = Ok tt ->
  learning_rates (trace (for_each es (epoch_body w a env) s))
  = decayed (lr s) (length es)
  /\ lr (final (for_each es (epoch_body w a env) s)) = decay_n (lr s) (length es)
  /\ steps (final (for_each es (epoch_body w a env) s)) =
     (steps s + length es * length (batches (train_loader env)))%nat.
Proof.
  induction es as [|e es IH]; intros s H; cbn [for_each length decayed] in *.
  - repeat split. cbn [final ret fst snd]. lia.
  - apply bind_ok in H. destruct H as ([] & H1 & H2).
    destruct (epoch_body_projections _ _ _ _ _ H1)
      as (_ & _ & _ & R & _ & L & S).
    destruct (IH _ H2) as (IR & IL & IS).
    rewrite trace_bind, final_bind, H1. unfold learning_rates in *.
    rewrite collect_app, R, IR, IL, IS, L, S.
    split; [reflexivity|]. split; [apply decay_n_shift|]. lia.
Qed.

Lemma epoch_loop_ok w a env s :
  outcome (epoch_loop w a env s) = Ok tt ->
  computations (trace (epoch_loop w a env s)) = training_computations a env
  /\ images_written (trace (epoch_loop w a env s)) =
     flat_map (fun e => match batches (test_loader env) with
                        | [] => []
                        | _ :: _ => [reconstruction_path w a e]
                        end ++ [sample_path w a e])
              (Py.range 1 (epochs a + 1))
  /\ checkpoints (trace (epoch_loop w a env s)) = []
  /\ epochs_run (trace (epoch_loop w a env s)) = Py.range 1 (epochs a + 1)
  /\ learning_rates (trace (epoch_loop w a env s)) =
     decayed (lr s) (Z.to_nat (epochs a))
  /\ lr (final (epoch_loop w a env s)) = decay_n (lr s) (Z.to_nat (epochs a))
  /\ steps (final (epoch_loop w a env s)) =
     (steps s + Z.to_nat (epochs a) * length (batches (train_loader env)))%nat.
Proof.
  unfold epoch_loop, training_computations. intro H.
  assert (L : length (Py.range 1 (epochs a + 1)) = Z.to_nat (epochs a)).
  { unfold Py.range. rewrite length_map, length_seq. f_equal. lia. }
  destruct (epochs_rates _ _ _ _ _ H) as (R & F & S). rewrite L in R, F, S.
  repeat split; try assumption.
  - apply for_each_ok; auto. intros x s0 H0.
    apply (epoch_body_projections _ _ _ _ _ H0).
  - apply for_each_ok; auto. intros x s0 H0.
    apply (epoch_body_projections _ _ _ _ _ H0).
  - unfold checkpoints.
    rewrite (for_each_ok checkpoint_of (fun _ => [])); auto.
    + clear. induction (Py.range 1 (epochs a + 1)); simpl; auto.
    + intros x s0 H0. apply (epoch_body_projections _ _ _ _ _ H0).
  - unfold epochs_run.
    rewrite (for_each_ok epoch_of (fun e => [e])); auto.
    + clear. induction (Py.range 1 (epochs a + 1)); simpl; congruence.
    + intros x s0 H0. apply (epoch_body_projections _ _ _ _ _ H0).
Qed.

(** ** The latent grid *)

Lemma x_range_values :
  x_range = [-3; -12 # 5; -9 # 5; -6 # 5; -3 # 5; 0; 3 # 5; 6 # 5; 9 # 5;
             12 # 5; 3]%Q.
Proof. reflexivity. Qed.


Lemma update_app {X} (f : X -> Outcome X) (l1 l2 : list X) (x : X) :
  update (length l1) f (l1 ++ x :: l2) =
  and_then (f x) (fun y => Ok (l1 ++ y :: l2)).
Proof.
  induction l1 as [|h l1 IH]; simpl.
  - reflexivity.
  - rewrite IH. destruct (f x); reflexivity.
Qed.

Lemma update_zero_row n d x :
  (d < n)%nat ->
  update d (fun _ => Ok x) (repeat 0%Q n) = Ok (unit_row n d x).
Proof.
  intro H. unfold unit_row.
  replace (repeat 0%Q n) with (repeat 0%Q d ++ 0%Q :: repeat 0%Q (n - d - 1)).
  - rewrite <- (repeat_length 0%Q d) at 1. now rewrite update_app.
  - change (0%Q :: repeat 0%Q (n - d - 1)) with (repeat 0%Q (S (n - d - 1))).
    rewrite <- repeat_app. f_equal. lia.
Qed.

Lemma assign_column_zero n d xs :
  (d < n)%nat ->
  assign_column d (repeat (repeat 0%Q n) (length xs)) xs = Ok (group n xs d).
Proof.
  intro H. induction xs as [|x xs IH]; simpl.
  - reflexivity.
  - rewrite update_zero_row, IH by assumption. reflexivity.
Qed.

Lemma fill_zero n xs : forall m k,
  (k + m = n)%nat ->
  fill (seq k m) xs
       (map (group n xs) (seq 0 k) ++ repeat (repeat (repeat 0%Q n) (length xs)) m)
  = Ok (map (group n xs) (seq 0 n)).
Proof.
  induction m as [|m IH]; intros k H; simpl.
  - rewrite app_nil_r. f_equal. f_equal. f_equal. lia.
  - unfold assign.
    replace k with (length (map (group n xs) (seq 0 k))) at 1
      by now rewrite length_map, length_seq.
    rewrite update_app, assign_column_zero by lia. simpl.
    specialize (IH (S k)). rewrite seq_S, map_app in IH. simpl in IH.
    rewrite <- app_assoc in IH. simpl in IH. apply IH. lia.
Qed.

Lemma latent_grid_traversal zd :
  0 <= zd -> latent_grid zd = Ok (traversal (Z.to_nat zd)).
Proof.
  intro H. unfold latent_grid, zeros3.
  change (Z.of_nat nums) with 11.
  replace (zd <? 0) with false by (symmetry; apply Z.ltb_ge; lia).
  change (11 <? 0) with false. change (Z.to_nat 11) with 11%nat.
  cbn [orb and_then].
  pose proof (fill_zero (Z.to_nat zd) x_range (Z.to_nat zd) 0 eq_refl) as F.
  cbn [seq map app] in F. change (length x_range) with 11%nat in F.
  rewrite F. cbn [and_then]. unfold traversal. now rewrite flat_map_concat_map.
Qed.







Lemma sample_latent_space_ok w a env s :
  outcome (sample_latent_space w a env s) = Ok tt ->
  exists g shape,
    latent_grid (z_dim a) = Ok g
    /\ sample_latent_space w a env s =
       ([EDecode (Grid g); ESaveImage (latent_path w a) shape 11;
         EPrint PLatentSampled], s, Ok tt).
Proof.
  unfold sample_latent_space, bind.
  destruct (latent_grid (z_dim a)) as [g|]; simpl; [|discriminate].
  destruct (Tensor.view _ _) as [shape|]; simpl; [|discriminate].
  intros _. exists g, shape. split; reflexivity.
Qed.



(** ** The whole run *)

Lemma prologue_then w a (k : M unit) s :
  (parse_args w a ;; make_dir w a ;; k) s =
  let '(t, s', o) := k s in (prologue_events w a ++ t, s', o).
Proof.
  unfold parse_args, make_dir, prologue_events.
  destruct (path_exists w (dirName w a)); unfold bind; simpl;
    destruct (k s) as [[t s'] o]; reflexivity.
Qed.

Lemma setup_then w a env (k : M unit) s :
  (setup w a env ;; k) s =
  let '(t, s', o) := k fresh in (setup_events w a env ++ t, s', o).
Proof.
  unfold setup, report_sizes, build_model, build_plots, setup_events, fresh.
  destruct (tensorboard a); unfold bind; simpl;
    destruct (k _) as [[t s'] o]; reflexivity.
Qed.

Lemma load_dataset_cases w a s :
  match selected a with
  | Some d =>
      if has_model w d (model_name a)
      then load_dataset w a s = ([ELoad d (batch_size a)], s, Ok (env_of w a d))
      else load_dataset w a s = ([], s, Raise (KeyError (model_name a)))
  | None =>
      load_dataset w a s =
      ([], s, Raise (Exception "Dataset not found. Try: MNIST, dSprites"))
  end.
Proof.
  unfold selected, load_dataset, lookup_model.
  destruct (Py.lower (data a) =? "mnist")%string.
  - destruct (has_model w MNIST (model_name a)); reflexivity.
  - destruct (Py.lower (data a) =? "dsprites")%string; [|reflexivity].
    destruct (has_model w DSprites (model_name a)); reflexivity.
Qed.

Lemma save_checkpoint_run w a env s :
  save_checkpoint w a env s =
  ([ETorchSave (model_out_path w a) (checkpoint_dict a env s);
    EPrint (PModelSaved (model_out_path w a))], s, Ok tt).
Proof. reflexivity. Qed.

Lemma after_dispatch_ok w a env s :
  outcome (after_dispatch w a env s) = Ok tt ->
  exists g shape,
    outcome (epoch_loop w a env fresh) = Ok tt
    /\ latent_grid (z_dim a) = Ok g
    /\ trace (after_dispatch w a env s) =
       setup_events w a env
       ++ trace (epoch_loop w a env fresh)
       ++ [ETorchSave (model_out_path w a)
             (checkpoint_dict a env (final (epoch_loop w a env fresh)));
           EPrint (PModelSaved (model_out_path w a));
           EDecode (Grid g); ESaveImage (latent_path w a) shape 11;
           EPrint PLatentSampled]
    /\ final (after_dispatch w a env s) = final (epoch_loop w a env fresh).
Proof.
  unfold after_dispatch. rewrite setup_then.
  destruct ((epoch_loop w a env;; save_checkpoint w a env;;
             sample_latent_space w a env) fresh) as [[t s'] o] eqn:E.
  cbn [outcome trace final fst snd]. intros ->.
  assert (O : outcome ((epoch_loop w a env;; save_checkpoint w a env;;
             sample_latent_space w a env) fresh) = Ok tt) by now rewrite E.
  apply bind_ok in O. destruct O as ([] & O1 & O2).
  rewrite outcome_bind, save_checkpoint_run in O2.
  cbn [outcome final fst snd] in O2.
  destruct (sample_latent_space_ok _ _ _ _ O2) as (g & shape & G & L).
  exists g, shape. split; [exact O1|]. split; [exact G|].
  assert (T : t = trace ((epoch_loop w a env;; save_checkpoint w a env;;
             sample_latent_space w a env) fresh)) by now rewrite E.
  assert (F : s' = final ((epoch_loop w a env;; save_checkpoint w a env;;
             sample_latent_space w a env) fresh)) by now rewrite E.
  rewrite T, F, !trace_bind, !final_bind, O1, save_checkpoint_run.
  cbn [outcome trace final fst snd]. rewrite L. split; reflexivity.
Qed.

Lemma run_ok w a :
  outcome (run w a) = Ok tt ->
  exists d,
    selected a = Some d
    /\ outcome (after_dispatch w a (env_of w a d) boot) = Ok tt
    /\ trace (run w a) =
       prologue_events w a ++ ELoad d (batch_size a)
         :: trace (after_dispatch w a (env_of w a d) boot)
    /\ final (run w a) = final (after_dispatch w a (env_of w a d) boot).
Proof.
  unfold run, main. rewrite prologue_then.
  destruct ((env <- load_dataset w a;; after_dispatch w a env) boot)
    as [[t s'] o] eqn:E.
  cbn [outcome trace final fst snd]. intros ->.
  pose proof (load_dataset_cases w a boot) as C.
  unfold bind in E.
  destruct (selected a) as [d|].
  - destruct (has_model w d (model_name a)); rewrite C in E; [|discriminate].
    exists d. destruct (after_dispatch w a (env_of w a d) boot) as [[t2 s2] o2].
    injection E as <- <- ->. repeat split; reflexivity.
  - rewrite C in E. discriminate.
Qed.

Lemma prologue_plumbing w a :
  Forall (fun e => plumbing e /\ initial_rate_of e = None /\ decay_of e = None)
         (prologue_events w a).
Proof.
  unfold prologue_events, plumbing.
  destruct (path_exists w (dirName w a)); repeat constructor.
Qed.

Lemma setup_plumbing w a env : Forall plumbing (setup_events w a env).
Proof.
  unfold setup_events, plumbing. destruct (tensorboard a); repeat constructor.
Qed.

Lemma run_trace w a :
  outcome (run w a) = Ok tt ->
  exists d g shape,
    selected a = Some d
    /\ outcome (epoch_loop w a (env_of w a d) fresh) = Ok tt
    /\ latent_grid (z_dim a) = Ok g
    /\ trace (run w a) =
       prologue_events w a
       ++ ELoad d (batch_size a) :: setup_events w a (env_of w a d)
       ++ trace (epoch_loop w a (env_of w a d) fresh)
       ++ closing_events w a (env_of w a d)
            (final (epoch_loop w a (env_of w a d) fresh)) g shape
    /\ final (run w a) = final (epoch_loop w a (env_of w a d) fresh).
Proof.
  intro H. destruct (run_ok w a H) as (d & S & O & T & F).
  destruct (after_dispatch_ok _ _ _ _ O) as (g & shape & O' & G & T' & F').
  exists d, g, shape. rewrite T, T', F, F'. repeat split; assumption.
Qed.

(** A projection that the plumbing events do not feed sees, in a run that
    completes, only the epoch loop and the closing events. *)
Lemma run_projection {Y} (pi : Event -> option Y) w a d g shape :
  (forall e, plumbing e -> pi e = None) ->
  (forall b, pi (ELoad d b) = None) ->
  trace (run w a) =
    prologue_events w a
    ++ ELoad d (batch_size a) :: setup_events w a (env_of w a d)
    ++ trace (epoch_loop w a (env_of w a d) fresh)
    ++ closing_events w a (env_of w a d)
         (final (epoch_loop w a (env_of w a d) fresh)) g shape ->
  collect pi (trace (run w a)) =
  collect pi (trace (epoch_loop w a (env_of w a d) fresh))
  ++ collect pi (closing_events w a (env_of w a d)
                   (final (epoch_loop w a (env_of w a d) fresh)) g shape).
Proof.
  intros P L ->. rewrite collect_app. cbn [collect]. rewrite L.
  rewrite !collect_app.
  rewrite (collect_none pi (prologue_events w a)).
  - rewrite (collect_none pi (setup_events w a _)); [reflexivity|].
    eapply Forall_impl; [|apply setup_plumbing]. auto.
  - eapply Forall_impl; [|apply prologue_plumbing]. intros e [Q _]; auto.
Qed.

(** C4. In a run that completes, [torch.save] is called exactly once, on
    ['<results dir>/<model_name>_model.pth'], with a dictionary of exactly
    three entries: ['model'] holding the model object, ['state_dict'] the
    model's parameters and ['optimizer'] the optimizer's state, all as they
    stand at the end of training (after every optimizer step and every
    learning-rate decay of the run). *)
Theorem C4_checkpoint_contents w a :
  outcome (run w a) = Ok tt ->
  exists d,
    selected a = Some d /\
    let m := the_model a (env_of w a d) in
    let s := final (run w a) in
    checkpoints (trace (run w a)) =
      [((dirName w a ++ "/" ++ model_name a ++ "_model.pth")%string,
        [("model", TheModel m);
         ("state_dict", ModelStateDict m (steps s));
         ("optimizer", OptimizerStateDict (lr s) (steps s))])]
    /\ lr s = decay_n lr0 (Z.to_nat (epochs a))
    /\ steps s = (Z.to_nat (epochs a)
                  * length (batches (train_loader (env_of w a d))))%nat.
Proof.
  intro H. destruct (run_trace w a H) as (d & g & shape & S & O & G & T & F).
  destruct (epoch_loop_ok _ _ _ _ O) as (_ & _ & C & _ & _ & L & N).
  exists d. split; [exact S|]. cbv zeta. rewrite F. split; [|split].
  - unfold checkpoints in *.
    rewrite (run_projection checkpoint_of w a d g shape); auto.
    + rewrite C. reflexivity.
    + now intros e (_ & _ & Q & _).
  - exact L.
  - rewrite N. reflexivity.
Qed.

Lemma C4_witness :
  exists d, selected Demo.args = Some d
            /\ length (checkpoints (trace (run Demo.world Demo.args))) = 1%nat.
Proof.
  destruct (C4_checkpoint_contents Demo.world Demo.args) as (d & S & C & _).
  - vm_compute. reflexivity.
  - exists d. split; [exact S|]. cbv zeta in C. rewrite C. reflexivity.
Defined.

(** C5. In a run that completes, with a test loader that yields at least
    one batch, the image files written are, in order, for every epoch [e]
    from 1 to the epoch count, ['reconstruction_<e>.png'] and
    ['sample_<e>.png'], followed by the single ['sample_latent_space.png'];
    nothing else.  The reconstruction is saved while the first test batch
    (index 0) is processed and for no other batch, and the sample image is
    decoded from a 64-row [torch.randn] latent batch. *)
Theorem C5_image_files w a :
  outcome (run w a) = Ok tt ->
  (forall d, selected a = Some d ->
             batches (test_loader (env_of w a d)) <> []) ->
  images_written (trace (run w a)) =
    flat_map (fun e =>
                [(dirName w a ++ "/reconstruction_" ++ Py.str_int e ++ ".png")%string;
                 (dirName w a ++ "/sample_" ++ Py.str_int e ++ ".png")%string])
             (Py.range 1 (epochs a + 1))
    ++ [(dirName w a ++ "/sample_latent_space.png")%string]
  /\ (forall env epoch i data s,
        i <> 0 ->
        images_written (trace (test_batch w a env epoch i data s)) = [])
  /\ (forall env epoch s,
        outcome (sample_prior w a env epoch s) = Ok tt ->
        exists shape,
          trace (sample_prior w a env epoch s) =
          [EDecode (Randn 64 (z_dim a));
           ESaveImage (sample_path w a epoch) shape 8]).
Proof.
  intros H B. destruct (run_trace w a H) as (d & g & shape & S & O & G & T & F).
  destruct (epoch_loop_ok _ _ _ _ O) as (_ & I & _).
  split; [|split].
  - unfold images_written in *.
    rewrite (run_projection image_file w a d g shape); auto.
    + rewrite I. specialize (B d S).
      destruct (batches (test_loader (env_of w a d))) as [|b bs]; [congruence|].
      reflexivity.
    + now intros e (_ & Q & _).
  - intros env epoch i data s Hi. unfold test_batch.
    rewrite !trace_emit_then. destruct (Z.eqb_spec i 0); [contradiction|].
    reflexivity.
  - intros env epoch s Hs. destruct (sample_prior_ok _ _ _ _ _ Hs) as (sh & E).
    exists sh. now rewrite E.
Qed.

Lemma C5_witness :
  images_written (trace (run Demo.world Demo.args)) =
  ["results_MNIST_vae_zdim-2_beta-4.0/reconstruction_1.png";
   "results_MNIST_vae_zdim-2_beta-4.0/sample_1.png";
   "results_MNIST_vae_zdim-2_beta-4.0/reconstruction_2.png";
   "results_MNIST_vae_zdim-2_beta-4.0/sample_2.png";
   "results_MNIST_vae_zdim-2_beta-4.0/sample_latent_space.png"].
Proof.
  refine (proj1 (C5_image_files Demo.world Demo.args _ _)).
  - vm_compute. reflexivity.
  - intros d _. destruct d; discriminate.
Defined.

(** ** The order of computation *)

Lemma range_from_one n :
  length (Py.range 1 (n + 1)) = Z.to_nat n
  /\ (forall k, (k < Z.to_nat n)%nat ->
                nth k (Py.range 1 (n + 1)) 0 = 1 + Z.of_nat k).
Proof.
  unfold Py.range. replace (n + 1 - 1) with n by lia. split.
  - now rewrite length_map, length_seq.
  - intros k Hk.
    rewrite (nth_indep _ 0 (1 + Z.of_nat 0)) by (now rewrite length_map, length_seq).
    rewrite (map_nth (fun k => 1 + Z.of_nat k)), seq_nth by assumption.
    reflexivity.
Qed.

(** C6. In a run that completes, the calls that compute are exactly the
    nested iteration: for each epoch 1, 2, ..., epochs in increasing order,
    first every training batch in loader order (zero the gradients, forward
    pass, loss, backward pass, optimizer step), then the scheduler step,
    then every test batch in loader order (forward pass, loss), then the
    decoding of 64 prior samples; after the last epoch, one decoding of the
    latent grid.  A batch step consists of framework calls only. *)
Theorem C6_nested_sequential_iteration w a :
  outcome (run w a) = Ok tt ->
  exists d g,
    selected a = Some d
    /\ computations (trace (run w a)) =
       training_computations a (env_of w a d) ++ [EDecode (Grid g)]
    /\ epochs_run (trace (run w a)) = Py.range 1 (epochs a + 1)
    /\ length (Py.range 1 (epochs a + 1)) = Z.to_nat (epochs a)
    /\ (forall k, (k < Z.to_nat (epochs a))%nat ->
                  nth k (Py.range 1 (epochs a + 1)) 0 = 1 + Z.of_nat k)
    /\ (forall env epoch i data s,
          computations (trace (train_batch a env epoch i data s)) =
          [EZeroGrad; EForward true data; ELoss true (beta a); EBackward;
           EOptimizerStep]).
Proof.
  intro H. destruct (run_trace w a H) as (d & g & shape & S & O & G & T & F).
  destruct (epoch_loop_ok _ _ _ _ O) as (C & _ & _ & E & _).
  destruct (range_from_one (epochs a)) as (L & N).
  exists d, g. split; [exact S|]. split; [|split; [|split; [|split]]]; auto.
  - unfold computations in *.
    rewrite (run_projection computation w a d g shape); auto.
    + rewrite C. reflexivity.
    + now intros e (Q & _).
  - unfold epochs_run in *.
    rewrite (run_projection epoch_of w a d g shape); auto.
    + rewrite E. cbn [closing_events collect epoch_of]. apply app_nil_r.
    + now intros e (_ & _ & _ & _ & Q).
  - intros. apply train_batch_computations.
Qed.

Lemma C6_witness :
  epochs_run (trace (run Demo.world Demo.args)) = [1; 2]
  /\ length (computations (trace (run Demo.world Demo.args))) = 33%nat.
Proof.
  destruct (C6_nested_sequential_iteration Demo.world Demo.args)
    as (d & g & S & C & E & _).
  - vm_compute. reflexivity.
  - split; [exact E|]. vm_compute. reflexivity.
Defined.

(** ** The learning rate *)

Lemma decayed_length q n : length (decayed q n) = n.
Proof. revert q; induction n as [|n IH]; intro q; simpl; auto. Qed.

Lemma decayed_nth n : forall q k,
  (k < n)%nat -> nth k (decayed q n) 0%float = decay_n q (S k).
Proof.
  induction n as [|n IH]; intros q k H; [lia|].
  cbn [decayed]. destruct k as [|k]; [reflexivity|].
  cbn [nth]. rewrite IH by lia. apply decay_n_shift.
Qed.

Lemma collect_narrow {Y} (pi : Event -> option Y) :
  (forall e, computation e = None -> pi e = None) ->
  forall t, collect pi (computations t) = collect pi t.
Proof.
  intros P t. unfold computations.
  induction t as [|e t IH]; [reflexivity|].
  cbn [collect]. destruct (computation e) as [e'|] eqn:E.
  - assert (e' = e) as -> by (destruct e; simpl in E; congruence).
    cbn [collect]. now rewrite IH.
  - now rewrite (P e E).
Qed.

Lemma collect_flat_map {X Y Z} (pi : Y -> option Z) (f : X -> list Y) l :
  collect pi (flat_map f l) = flat_map (fun x => collect pi (f x)) l.
Proof.
  induction l as [|x l IH]; simpl; [reflexivity|].
  now rewrite collect_app, IH.
Qed.

Lemma scheduler_steps_in_epoch a env epoch :
  collect scheduler_step_of (epoch_computations a env epoch) = [tt].
Proof.
  unfold epoch_computations. rewrite !collect_app. cbn [collect scheduler_step_of].
  rewrite collect_app, !collect_flat_map.
  assert (Z1 : forall l, flat_map
            (fun x => collect scheduler_step_of (batch_step a x)) l = [])
    by (induction l; simpl; auto).
  assert (Z2 : forall l, flat_map
            (fun x => collect scheduler_step_of (eval_step a x)) l = [])
    by (induction l; simpl; auto).
  rewrite Z1, Z2. reflexivity.
Qed.

Lemma scheduler_steps_in_training a env :
  length (collect scheduler_step_of (training_computations a env))
  = Z.to_nat (epochs a).
Proof.
  unfold training_computations. rewrite collect_flat_map.
  rewrite <- (proj1 (range_from_one (epochs a))).
  induction (Py.range 1 (epochs a + 1)) as [|e l IH]; [reflexivity|].
  cbn [flat_map]. rewrite scheduler_steps_in_epoch.
  cbn [app length]. f_equal. exact IH.
Qed.

Lemma run_computations w a d g shape :
  outcome (epoch_loop w a (env_of w a d) fresh) = Ok tt ->
  trace (run w a) =
    prologue_events w a
    ++ ELoad d (batch_size a) :: setup_events w a (env_of w a d)
    ++ trace (epoch_loop w a (env_of w a d) fresh)
    ++ closing_events w a (env_of w a d)
         (final (epoch_loop w a (env_of w a d) fresh)) g shape ->
  computations (trace (run w a)) =
  training_computations a (env_of w a d) ++ [EDecode (Grid g)].
Proof.
  intros O T. destruct (epoch_loop_ok _ _ _ _ O) as (C & _).
  unfold computations in *.
  rewrite (run_projection computation w a d g shape); auto.
  - rewrite C. reflexivity.
  - now intros e (Q & _).
Qed.

(** ** The reconstruction image and the batch size *)

Lemma view_images s bs img :
  0 < bs -> 0 < img ->
  Tensor.view s [bs; 1; img; img] =
  if bs * (img * img) =? Tensor.numel s then Ok [bs; 1; img; img]
  else Raise RuntimeError.
Proof.
  intros Hb Hi. unfold Tensor.view. cbn [existsb filter].
  replace (bs <? -1) with false by (symmetry; apply Z.ltb_ge; lia).
  replace (img <? -1) with false by (symmetry; apply Z.ltb_ge; lia).
  replace (bs =? -1) with false by (symmetry; apply Z.eqb_neq; lia).
  replace (img =? -1) with false by (symmetry; apply Z.eqb_neq; lia).
  change (1 <? -1) with false. change (1 =? -1) with false.
  cbn [orb negb]. unfold Tensor.numel at 1. cbn [fold_right].
  replace (bs * (1 * (img * (img * 1)))) with (bs * (img * img)) by ring.
  reflexivity.
Qed.

Lemma save_reconstruction_short w a env epoch d0 dims s :
  0 < batch_size a -> 0 < img_size env ->
  Tensor.numel (recon_shape w (the_model a env) (d0 :: dims))
  = d0 * (img_size env * img_size env) ->
  d0 <> batch_size a ->
  save_reconstruction w a env epoch (d0 :: dims) s = ([], s, Raise RuntimeError).
Proof.
  intros Hb Hi Hn Hd. unfold save_reconstruction, bind.
  cbn [Tensor.size0 lift ret]. rewrite (view_images _ _ _ Hb Hi), Hn.
  replace (batch_size a * (img_size env * img_size env)
           =? d0 * (img_size env * img_size env)) with false.
  - reflexivity.
  - symmetry. apply Z.eqb_neq. intro E.
    apply Z.mul_cancel_r in E; [congruence|nia].
Qed.

Lemma save_reconstruction_full w a env epoch s :
  0 < batch_size a -> 0 < img_size env ->
  Tensor.numel (recon_shape w (the_model a env)
                  [batch_size a; 1; img_size env; img_size env])
  = batch_size a * (img_size env * img_size env) ->
  save_reconstruction w a env epoch
    [batch_size a; 1; img_size env; img_size env] s =
  ([ESaveImage (reconstruction_path w a epoch)
      [Z.min (Z.min (batch_size a) 8) (batch_size a)
       + Z.min (Z.min (batch_size a) 8) (batch_size a);
       1; img_size env; img_size env]
      (Z.min (batch_size a) 8)], s, Ok tt).
Proof.
  intros Hb Hi Hn. unfold save_reconstruction, bind.
  cbn [Tensor.size0 lift ret]. rewrite (view_images _ _ _ Hb Hi), Hn.
  rewrite Z.eqb_refl. cbn [lift ret Tensor.take Tensor.cat].
  unfold Tensor.shape_eqb.
  destruct (list_eq_dec Z.eq_dec _ _) as [_|N]; [reflexivity|congruence].
Qed.

(** C10. Let the batch size be positive and let the model return one
    [img_size] x [img_size] reconstruction per input item.  Then the
    reconstruction save, and with it [test], can only return when the first
    test batch holds exactly [batch_size] items; when it holds another
    number (in particular fewer), the [view] fails, [test] raises a
    RuntimeError and no image is saved.  A first batch of exactly
    [batch_size] images does get its reconstruction saved. *)
Theorem C10_reconstruction_needs_full_batch w a env epoch d0 dims rest s :
  0 < batch_size a ->
  0 < img_size env ->
  batches (test_loader env) = (d0 :: dims) :: rest ->
  Tensor.numel (recon_shape w (the_model a env) (d0 :: dims))
  = d0 * (img_size env * img_size env) ->
  (outcome (save_reconstruction w a env epoch (d0 :: dims) s) = Ok tt ->
   d0 = batch_size a)
  /\ (outcome (test w a env epoch s) = Ok tt -> d0 = batch_size a)
  /\ (d0 <> batch_size a ->
      outcome (test w a env epoch s) = Raise RuntimeError
      /\ images_written (trace (test w a env epoch s)) = [])
  /\ (d0 < batch_size a ->
      outcome (test w a env epoch s) = Raise RuntimeError
      /\ images_written (trace (test w a env epoch s)) = [])
  /\ (d0 = batch_size a -> dims = [1; img_size env; img_size env] ->
      outcome (save_reconstruction w a env epoch (d0 :: dims) s) = Ok tt
      /\ images_written (trace (save_reconstruction w a env epoch (d0 :: dims) s))
         = [reconstruction_path w a epoch]).
Proof.
  intros Hb Hi Hl Hn.
  assert (Short : d0 <> batch_size a ->
            outcome (test w a env epoch s) = Raise RuntimeError
            /\ images_written (trace (test w a env epoch s)) = []).
  { intro Hd.
    assert (B : test_batch w a env epoch 0 (d0 :: dims) s =
                ([EForward false (d0 :: dims); ELoss false (beta a)], s,
                 Raise RuntimeError)).
    { unfold test_batch. change (0 =? 0) with true. cbv iota.
      unfold bind at 1 2. cbn [emit].
      now rewrite (save_reconstruction_short w a env epoch d0 dims s Hb Hi Hn Hd). }
    unfold test. rewrite Hl. cbn [for_enumerate].
    rewrite outcome_emit_then, trace_emit_then.
    rewrite (bind_raise _ _ _ _ _ _
               (bind_raise _ _ _ _ _ _ B)).
    split; reflexivity. }
  split; [|split; [|split; [|split]]].
  - intro O. destruct (Z.eq_dec d0 (batch_size a)) as [E|N]; [exact E|].
    rewrite (save_reconstruction_short w a env epoch d0 dims s Hb Hi Hn N) in O.
    discriminate.
  - intro O. destruct (Z.eq_dec d0 (batch_size a)) as [E|N]; [exact E|].
    destruct (Short N) as (R & _). congruence.
  - exact Short.
  - intro Hd. apply Short. lia.
  - intros -> ->. rewrite save_reconstruction_full; auto.
Qed.

Lemma C10_witness :
  outcome (test Demo.world Demo.args Demo.short_env 1 fresh) = Raise RuntimeError
  /\ images_written (trace (test Demo.world Demo.args Demo.short_env 1 fresh)) = [].
Proof.
  refine (proj1 (proj2 (proj2 (proj2
    (C10_reconstruction_needs_full_batch Demo.world Demo.args Demo.short_env
       1 10 [1; 28; 28] [] fresh _ _ _ _)))) _); simpl; try reflexivity; lia.
Defined.

(** ** Runs that complete *)

Lemma for_enumerate_returns {X} (body : Z -> X -> M unit) :
  forall xs i s,
    (forall k x s', nth_error xs k = Some x ->
                    outcome (body (i + Z.of_nat k) x s') = Ok tt) ->
    outcome (for_enumerate i xs body s) = Ok tt.
Proof.
  induction xs as [|x xs IH]; intros i s H; cbn [for_enumerate].
  - reflexivity.
  - rewrite outcome_bind.
    pose proof (H 0%nat x s eq_refl) as H0. rewrite Z.add_0_r in H0.
    rewrite H0. apply IH. intros k y s' Hk.
    replace (i + 1 + Z.of_nat k) with (i + Z.of_nat (S k)) by lia.
    now apply H.
Qed.

Lemma for_each_returns {X} (body : X -> M unit) :
  (forall x s, outcome (body x s) = Ok tt) ->
  forall xs s, outcome (for_each xs body s) = Ok tt.
Proof.
  intros H xs; induction xs as [|x xs IH]; intro s; cbn [for_each].
  - reflexivity.
  - now rewrite outcome_bind, H.
Qed.

Lemma train_batch_returns a env epoch i data s :
  batch_size a <> 0 -> log_interval a <> 0 -> batch_ok data ->
  batches (train_loader env) <> [] ->
  outcome (train_batch a env epoch i data s) = Ok tt.
Proof.
  intros Hb Hl (d & rest & -> & Hd) Hn. unfold train_batch.
  rewrite !outcome_emit_then, outcome_bind, optimizer_step_run.
  cbn [outcome snd final fst].
  unfold plot_train, log_train, divide_by, py_mod.
  apply Z.eqb_neq in Hb, Hl, Hd. rewrite Hb, Hl.
  assert (Hz : (Z.of_nat (length (batches (train_loader env))) =? 0) = false).
  { apply Z.eqb_neq. destruct (batches (train_loader env)); [congruence|].
    simpl; lia. }
  destruct (tensorboard a); unfold bind; cbn;
    destruct ((i mod log_interval a =? 0) && negb (i =? 0)); cbn;
    rewrite ?Hz; cbn; rewrite ?Hd; reflexivity.
Qed.

Lemma train_returns a env epoch s :
  batch_size a <> 0 -> log_interval a <> 0 ->
  sampler_len (train_loader env) <> 0 ->
  Forall batch_ok (batches (train_loader env)) ->
  outcome (train a env epoch s) = Ok tt.
Proof.
  intros Hb Hl Hs Hf. unfold train.
  rewrite outcome_emit_then, outcome_bind.
  rewrite for_enumerate_returns.
  - rewrite outcome_bind, scheduler_step_run. cbn [outcome snd final fst].
    unfold divide_by. apply Z.eqb_neq in Hs. rewrite Hs. reflexivity.
  - intros k x s' Hk. apply train_batch_returns; auto.
    + rewrite Forall_forall in Hf. apply Hf. eapply nth_error_In; eauto.
    + intro E. rewrite E in Hk. destruct k; discriminate.
Qed.

Lemma test_returns w a env epoch s :
  0 < batch_size a -> 0 < img_size env ->
  sampler_len (test_loader env) <> 0 ->
  (forall data rest, batches (test_loader env) = data :: rest ->
     data = [batch_size a; 1; img_size env; img_size env]) ->
  Tensor.numel (recon_shape w (the_model a env)
                  [batch_size a; 1; img_size env; img_size env])
  = batch_size a * (img_size env * img_size env) ->
  outcome (test w a env epoch s) = Ok tt.
Proof.
  intros Hb Hi Hs Hd Hn. unfold test.
  rewrite outcome_emit_then, outcome_bind.
  rewrite for_enumerate_returns.
  - unfold divide_by. apply Z.eqb_neq in Hs.
    rewrite outcome_bind. rewrite Hs. cbn [outcome ret snd].
    destruct (tensorboard a); reflexivity.
  - intros k x s' Hk. unfold test_batch. rewrite !outcome_emit_then.
    destruct k as [|k].
    + change (0 + Z.of_nat 0 =? 0) with true. cbv iota.
      destruct (batches (test_loader env)) as [|y ys] eqn:E; [discriminate|].
      injection Hk as ->. rewrite (Hd x ys eq_refl).
      now rewrite save_reconstruction_full.
    + replace (0 + Z.of_nat (S k) =? 0) with false
        by (symmetry; apply Z.eqb_neq; lia).
      reflexivity.
Qed.

Lemma sample_prior_returns w a env epoch s :
  0 <= z_dim a -> 0 < img_size env ->
  Tensor.numel (decode_shape w (the_model a env) [64; z_dim a])
  = 64 * (img_size env * img_size env) ->
  outcome (sample_prior w a env epoch s) = Ok tt.
Proof.
  intros Hz Hi Hn. unfold sample_prior, bind.
  replace (z_dim a <? 0) with false by (symmetry; apply Z.ltb_ge; lia).
  cbn [ret emit]. rewrite view_images, Hn, Z.eqb_refl by lia. reflexivity.
Qed.

Lemma sample_latent_space_returns w a env s :
  0 < z_dim a -> 0 < img_size env ->
  Tensor.numel (decode_shape w (the_model a env)
                  [z_dim a * Z.of_nat nums; z_dim a])
  = z_dim a * Z.of_nat nums * (img_size env * img_size env) ->
  outcome (sample_latent_space w a env s) = Ok tt.
Proof.
  intros Hz Hi Hn. unfold sample_latent_space, bind.
  rewrite latent_grid_traversal by lia. cbn [lift ret emit].
  rewrite view_images, Hn, Z.eqb_refl by (simpl; lia). reflexivity.
Qed.

Lemma img_size_positive w a d : 0 < img_size (env_of w a d).
Proof. destruct d; reflexivity. Qed.

(** X1. Under the conditions of [well_behaved] (a supported dataset and a
    known model, non-zero divisors, non-empty training batches, a full first
    test batch of one-channel images, a model that returns one image per
    row, a positive latent dimension) the script runs to its end without
    raising. *)
Lemma run_completes w a d :
  well_behaved w a d -> outcome (run w a) = Ok tt.
Proof.
  intros (S & Hm & Hb & Hl & Hz & Htr & Hte & Hf & Hd & Hr & Hdec).
  pose proof (img_size_positive w a d) as Hi.
  unfold run, main. rewrite prologue_then.
  destruct ((env <- load_dataset w a;; after_dispatch w a env) boot)
    as [[t s'] o] eqn:E.
  cbn [outcome snd].
  pose proof (load_dataset_cases w a boot) as C. rewrite S, Hm in C.
  unfold bind in E. rewrite C in E.
  destruct (after_dispatch w a (env_of w a d) boot) as [[t2 s2] o2] eqn:E2.
  injection E as _ _ <-.
  change o2 with (outcome (t2, s2, o2)). rewrite <- E2. clear E2 t2 s2 o2.
  unfold after_dispatch. rewrite setup_then.
  destruct ((epoch_loop w a (env_of w a d);; save_checkpoint w a (env_of w a d);;
             sample_latent_space w a (env_of w a d)) fresh) as [[t3 s3] o3] eqn:E3.
  cbn [outcome snd].
  change o3 with (outcome (t3, s3, o3)). rewrite <- E3. clear E3 t3 s3 o3.
  rewrite outcome_bind. unfold epoch_loop.
  rewrite for_each_returns.
  - rewrite outcome_bind, save_checkpoint_run. cbn [outcome snd final fst].
    apply sample_latent_space_returns; auto. apply Hdec. simpl; lia.
  - intros e s. unfold epoch_body.
    rewrite outcome_bind, train_returns by (auto; lia).
    rewrite outcome_bind, test_returns by auto.
    rewrite outcome_bind, report_lr_run. cbn [outcome snd final fst].
    apply sample_prior_returns; auto; [lia|]. apply Hdec. lia.
Qed.


Lemma demo_well_behaved : well_behaved Demo.world Demo.args MNIST.
Proof.
  unfold well_behaved. cbv zeta.
  repeat match goal with |- _ /\ _ => split end;
    try reflexivity; try discriminate.
  - cbn. repeat constructor; eexists _, _; split; try reflexivity; discriminate.
  - cbn. intros data rest E. now injection E as <- _.
Qed.

Lemma X1_witness : outcome (run Demo.world Demo.args) = Ok tt.
Proof.
  apply (run_completes Demo.world Demo.args MNIST).
  unfold well_behaved. cbv zeta.
  repeat match goal with |- _ /\ _ => split end;
    try reflexivity; try discriminate.
  - cbn. repeat constructor; eexists _, _; split; try reflexivity; discriminate.
  - cbn. intros data rest E. now injection E as <- _.
Defined.

(** ** Failures before training *)

Lemma main_trace w a s :
  main w a s =
  let '(t, s', o) := (env <- load_dataset w a ;; after_dispatch w a env) s in
  (prologue_events w a ++ t, s', o).
Proof. unfold main. apply prologue_then. Qed.

Lemma run_dispatch_raises w a e :
  load_dataset w a boot = ([], boot, Raise e) ->
  run w a = (prologue_events w a, boot, Raise e).
Proof.
  intro L. unfold run. rewrite main_trace.
  rewrite (bind_raise _ _ _ _ _ _ L). now rewrite app_nil_r.
Qed.

Lemma after_prologue_no_mkdir w a :
  always (fun e => mkdir_of e = None)
         (env <- load_dataset w a ;; after_dispatch w a env).
Proof. unfold_script; always_tac; reflexivity. Qed.

(** X4. The two plotting sinks exclude each other in every run, whatever
    its outcome: with [--tensorboard] no [LossPlot] is built or fed, and
    without it no [SummaryWriter] is built or fed. *)
Theorem X4_one_plotting_sink w a :
  Forall (fun e => if tensorboard a then uses_loss_plot e = false
                   else uses_tensorboard e = false)
         (trace (run w a)).
Proof.
  assert (Q : always (fun e => if tensorboard a then uses_loss_plot e = false
                               else uses_tensorboard e = false) (main w a)).
  { unfold_script. destruct (tensorboard a); always_tac; reflexivity. }
  apply Q.
Qed.

(** ** Divisors that are zero *)

Lemma plot_train_run a epoch i s :
  batch_size a <> 0 ->
  plot_train a epoch i s = ([plot_event a epoch i], s, Ok tt).
Proof.
  intro Hb. apply Z.eqb_neq in Hb.
  unfold plot_train, plot_event, divide_by. rewrite Hb.
  destruct (tensorboard a); reflexivity.
Qed.

(** X5. With [--log-interval 0] the modulo of line 115 raises
    ZeroDivisionError in the first training batch: by then that batch has
    been through its forward pass, backward pass, optimizer step and plot
    call, and nothing else happens; in particular the learning rate is not
    decayed. *)
Theorem X5_zero_log_interval_raises a env epoch data rest s :
  log_interval a = 0 ->
  batch_size a <> 0 ->
  batches (train_loader env) = data :: rest ->
  train a env epoch s =
  (ESetTrain :: batch_step a data ++ [plot_event a epoch 0],
   {| lr := lr s; last_epoch := last_epoch s; steps := S (steps s) |},
   Raise ZeroDivisionError).
Proof.
  intros Hl Hb Hd. unfold train. rewrite Hd. cbn [for_enumerate].
  assert (B : train_batch a env epoch 0 data s =
              (batch_step a data ++ [plot_event a epoch 0],
               {| lr := lr s; last_epoch := last_epoch s;
                  steps := S (steps s) |},
               Raise ZeroDivisionError)).
  { unfold train_batch, batch_step, log_train, py_mod. rewrite Hl.
    change (0 =? 0) with true. cbv iota.
    unfold bind at 1 2 3 4 5 6. cbn [emit]. rewrite optimizer_step_run.
    rewrite plot_train_run by assumption. reflexivity. }
  unfold bind at 1. cbn [emit].
  now rewrite (bind_raise _ _ _ _ _ _ (bind_raise _ _ _ _ _ _ B)).
Qed.

Lemma X5_witness :
  outcome (train {| data := "MNIST"; model_name := "vae"; z_dim := 2;
                    beta := Py.Int 1; batch_size := 16; epochs := 2;
                    log_interval := 0; seed := 1; no_cuda := false;
                    tensorboard := true |}
                 Demo.short_env 1 fresh)
  = Raise ZeroDivisionError.
Proof.
  rewrite (X5_zero_log_interval_raises _ Demo.short_env 1
             [16; 1; 28; 28] [[16; 1; 28; 28]] fresh);
    [reflexivity|reflexivity|discriminate|reflexivity].
Defined.

Lemma divide_by_ok b s : outcome (divide_by b s) = Ok tt -> b <> 0.
Proof.
  unfold divide_by. destruct (Z.eqb_spec b 0); [discriminate|auto].
Qed.

Lemma train_batch_ok_inv a env epoch i data s :
  outcome (train_batch a env epoch i data s) = Ok tt ->
  batch_size a <> 0 /\ log_interval a <> 0.
Proof.
  unfold train_batch. rewrite !outcome_emit_then, outcome_bind, optimizer_step_run.
  cbn [outcome snd final fst]. intro H.
  apply bind_ok in H. destruct H as ([] & H1 & H2). split.
  - unfold plot_train in H1.
    destruct (tensorboard a); apply bind_ok in H1;
      destruct H1 as ([] & H1 & _); exact (divide_by_ok _ _ H1).
  - unfold log_train in H2. apply bind_ok in H2. destruct H2 as (r & H2 & _).
    unfold py_mod in H2. destruct (Z.eqb_spec (log_interval a) 0); [discriminate|auto].
Qed.

Lemma train_ok_inv a env epoch s :
  outcome (train a env epoch s) = Ok tt ->
  sampler_len (train_loader env) <> 0
  /\ (batches (train_loader env) <> [] ->
      batch_size a <> 0 /\ log_interval a <> 0).
Proof.
  unfold train. rewrite outcome_emit_then. intro H.
  apply bind_ok in H. destruct H as ([] & H1 & H2). split.
  - rewrite outcome_bind, scheduler_step_run in H2.
    cbn [outcome snd final fst] in H2.
    apply bind_ok in H2. destruct H2 as ([] & H2 & _).
    exact (divide_by_ok _ _ H2).
  - intro N. destruct (batches (train_loader env)) as [|x xs]; [congruence|].
    cbn [for_enumerate] in H1. apply bind_ok in H1. destruct H1 as ([] & H1 & _).
    exact (train_batch_ok_inv _ _ _ _ _ _ H1).
Qed.

Lemma test_ok_inv w a env epoch s :
  outcome (test w a env epoch s) = Ok tt ->
  sampler_len (test_loader env) <> 0.
Proof.
  unfold test. rewrite outcome_emit_then. intro H.
  apply bind_ok in H. destruct H as ([] & _ & H2).
  apply bind_ok in H2. destruct H2 as ([] & H2 & _).
  exact (divide_by_ok _ _ H2).
Qed.

Lemma sample_prior_ok_inv w a env epoch s :
  outcome (sample_prior w a env epoch s) = Ok tt -> 0 <= z_dim a.
Proof.
  unfold sample_prior. rewrite outcome_bind.
  destruct (Z.ltb_spec (z_dim a) 0); [discriminate|auto].
Qed.

(** X6. A run of at least one epoch can only complete if the dataset is
    supported and the model known, neither loader reports an empty sampler
    (the average losses divide by their lengths), the latent dimension is
    not negative, and, when the training loader yields a batch, both the
    batch size and the log interval are non-zero. *)
Theorem X6_what_completion_requires w a :
  outcome (run w a) = Ok tt ->
  0 < epochs a ->
  exists d,
    selected a = Some d
    /\ has_model w d (model_name a) = true
    /\ sampler_len (train_loader (env_of w a d)) <> 0
    /\ sampler_len (test_loader (env_of w a d)) <> 0
    /\ 0 <= z_dim a
    /\ (batches (train_loader (env_of w a d)) <> [] ->
        batch_size a <> 0 /\ log_interval a <> 0).
Proof.
  intros H He. destruct (run_trace w a H) as (d & g & shape & Sel & O & _).
  exists d. split; [exact Sel|].
  assert (Hm : has_model w d (model_name a) = true).
  { pose proof (load_dataset_cases w a boot) as C. rewrite Sel in C.
    destruct (has_model w d (model_name a)); [reflexivity|].
    rewrite (run_dispatch_raises w a _ C) in H. discriminate. }
  split; [exact Hm|].
  unfold epoch_loop, Py.range in O.
  replace (Z.to_nat (epochs a + 1 - 1)) with (S (Z.to_nat (epochs a - 1)))
    in O by lia.
  cbn [seq map for_each] in O. apply bind_ok in O. destruct O as ([] & O & _).
  unfold epoch_body in O.
  apply bind_ok in O. destruct O as ([] & O1 & O).
  apply bind_ok in O. destruct O as ([] & O2 & O).
  rewrite outcome_bind, report_lr_run in O. cbn [outcome snd final fst] in O.
  destruct (train_ok_inv _ _ _ _ O1) as (T1 & T2).
  repeat split; auto.
  - exact (test_ok_inv _ _ _ _ _ O2).
  - exact (sample_prior_ok_inv _ _ _ _ _ O).
  - now apply T2.
  - now apply T2.
Qed.

Lemma X6_witness :
  exists d, selected Demo.args = Some d
            /\ sampler_len (train_loader (env_of Demo.world Demo.args d)) <> 0.
Proof.
  destruct (X6_what_completion_requires Demo.world Demo.args)
    as (d & S & _ & T & _).
  - vm_compute. reflexivity.
  - reflexivity.
  - exists d. split; assumption.
Defined.

(** ** Runs that get past the dispatch *)

Lemma run_loaded w a d :
  selected a = Some d ->
  has_model w d (model_name a) = true ->
  run w a =
  let '(t, s, o) := (epoch_loop w a (env_of w a d) ;;
                     save_checkpoint w a (env_of w a d) ;;
                     sample_latent_space w a (env_of w a d)) fresh in
  (prologue_events w a
     ++ ELoad d (batch_size a) :: setup_events w a (env_of w a d) ++ t, s, o).
Proof.
  intros Sel Hm. unfold run. rewrite main_trace.
  pose proof (load_dataset_cases w a boot) as C. rewrite Sel, Hm in C.
  unfold bind at 1. rewrite C. unfold after_dispatch. rewrite setup_then.
  destruct ((epoch_loop w a (env_of w a d);; save_checkpoint w a (env_of w a d);;
             sample_latent_space w a (env_of w a d)) fresh) as [[t s] o].
  reflexivity.
Qed.

Lemma epoch_loop_empty w a env s :
  epochs a <= 0 -> epoch_loop w a env s = ([], s, Ok tt).
Proof.
  intro H. unfold epoch_loop, Py.range.
  replace (Z.to_nat (epochs a + 1 - 1)) with 0%nat by lia. reflexivity.
Qed.

Lemma existsb_quiet {X} (f : X -> bool) (l : list X) :
  Forall (fun x => f x = false) l -> existsb f l = false.
Proof.
  induction 1 as [|x l Hx _ IH]; simpl; [reflexivity|now rewrite Hx].
Qed.

Lemma sample_latent_space_no_training w a env :
  always (fun e => is_training_event e = false) (sample_latent_space w a env).
Proof. unfold_script; always_tac; reflexivity. Qed.

(** X7. With an epoch count of zero or less the loop body never runs: a
    run that gets past the dispatch makes no training or evaluation call at
    all, and goes straight on to save a checkpoint of the untrained model
    (learning rate 1e-3, no optimizer step taken) and to the latent
    traversal. *)
Theorem X7_no_epochs_no_training w a d :
  epochs a <= 0 ->
  selected a = Some d ->
  has_model w d (model_name a) = true ->
  trace (run w a) =
    prologue_events w a
    ++ ELoad d (batch_size a) :: setup_events w a (env_of w a d)
    ++ ETorchSave (model_out_path w a)
         [("model", TheModel (the_model a (env_of w a d)));
          ("state_dict", ModelStateDict (the_model a (env_of w a d)) 0);
          ("optimizer", OptimizerStateDict 0.001 0)]
       :: EPrint (PModelSaved (model_out_path w a))
       :: trace (sample_latent_space w a (env_of w a d) fresh)
  /\ existsb is_training_event (trace (run w a)) = false
  /\ outcome (run w a) = outcome (sample_latent_space w a (env_of w a d) fresh).
Proof.
  intros He Sel Hm.
  assert (R : run w a =
              (prologue_events w a
                 ++ ELoad d (batch_size a) :: setup_events w a (env_of w a d)
                 ++ ETorchSave (model_out_path w a)
                      (checkpoint_dict a (env_of w a d) fresh)
                    :: EPrint (PModelSaved (model_out_path w a))
                    :: trace (sample_latent_space w a (env_of w a d) fresh),
               final (sample_latent_space w a (env_of w a d) fresh),
               outcome (sample_latent_space w a (env_of w a d) fresh))).
  { rewrite (run_loaded w a d Sel Hm).
    unfold bind at 1. rewrite (epoch_loop_empty _ _ _ _ He).
    unfold bind at 1. rewrite save_checkpoint_run.
    destruct (sample_latent_space w a (env_of w a d) fresh) as [[t s] o].
    reflexivity. }
  rewrite R. cbn [trace outcome fst snd].
  split; [reflexivity|]. split; [|reflexivity].
  rewrite existsb_app. cbn [existsb is_training_event orb].
  rewrite existsb_app. cbn [existsb is_training_event orb].
  rewrite (existsb_quiet _ _ (sample_latent_space_no_training w a _ fresh)).
  unfold prologue_events, setup_events.
  destruct (path_exists w (dirName w a)), (tensorboard a); reflexivity.
Qed.

Lemma X7_witness :
  existsb is_training_event
    (trace (run Demo.world (Flag.set_epochs 0 Demo.args))) = false.
Proof.
  apply (X7_no_epochs_no_training Demo.world (Flag.set_epochs 0 Demo.args) MNIST);
    [simpl; lia|reflexivity|reflexivity].
Defined.

Lemma epoch_loop_no_checkpoint w a env :
  always (fun e => checkpoint_of e = None) (epoch_loop w a env).
Proof. unfold_script; always_tac; reflexivity. Qed.

Lemma sample_latent_space_no_checkpoint w a env :
  always (fun e => checkpoint_of e = None) (sample_latent_space w a env).
Proof. unfold_script; always_tac; reflexivity. Qed.

Lemma checkpoints_before_loop w a d :
  checkpoints (prologue_events w a
                 ++ ELoad d (batch_size a) :: setup_events w a (env_of w a d))
  = [].
Proof.
  unfold checkpoints, prologue_events, setup_events.
  destruct (path_exists w (dirName w a)), (tensorboard a); reflexivity.
Qed.

(** X8. The checkpoint is written only after the last epoch: in every run,
    whatever its outcome, [torch.save] is called at most once, and if it is
    called then the whole epoch loop has returned.  A run that fails during
    training or evaluation therefore leaves no checkpoint. *)
Theorem X8_checkpoint_only_after_all_epochs w a :
  (length (checkpoints (trace (run w a))) <= 1)%nat
  /\ (checkpoints (trace (run w a)) <> [] ->
      exists d, selected a = Some d
                /\ outcome (epoch_loop w a (env_of w a d) fresh) = Ok tt).
Proof.
  pose proof (load_dataset_cases w a boot) as C.
  assert (Quiet : forall e, checkpoints (trace (prologue_events w a, boot,
                                               @Raise unit e)) = []).
  { intro e. cbn [trace fst]. unfold checkpoints, prologue_events.
    destruct (path_exists w (dirName w a)); reflexivity. }
  destruct (selected a) as [d|] eqn:Sel.
  - destruct (has_model w d (model_name a)) eqn:Hm.
    + assert (R : trace (run w a) =
                  (prologue_events w a
                     ++ ELoad d (batch_size a) :: setup_events w a (env_of w a d))
                  ++ trace ((epoch_loop w a (env_of w a d);;
                             save_checkpoint w a (env_of w a d);;
                             sample_latent_space w a (env_of w a d)) fresh)).
      { rewrite (run_loaded w a d Sel Hm).
        destruct ((epoch_loop w a (env_of w a d);;
                   save_checkpoint w a (env_of w a d);;
                   sample_latent_space w a (env_of w a d)) fresh) as [[t s] o].
        cbn [trace fst].
        exact (app_assoc _ (ELoad d _ :: setup_events _ _ _) t). }
      pose proof (epoch_loop_no_checkpoint w a (env_of w a d) fresh) as L.
      apply (collect_none checkpoint_of) in L.
      rewrite R. unfold checkpoints at 1 2.
      rewrite collect_app. fold (checkpoints (prologue_events w a
                 ++ ELoad d (batch_size a) :: setup_events w a (env_of w a d))).
      rewrite (checkpoints_before_loop w a d). cbn [app].
      rewrite trace_bind, collect_app, L. cbn [app].
      destruct (outcome (epoch_loop w a (env_of w a d) fresh)) as [[]|e] eqn:O.
      * rewrite trace_bind, save_checkpoint_run.
        cbn [outcome trace final fst snd app collect checkpoint_of].
        rewrite (collect_none checkpoint_of
                   (trace (sample_latent_space w a (env_of w a d) _)))
          by apply sample_latent_space_no_checkpoint.
        split; [simpl; lia|]. intros _. exists d. split; [reflexivity|exact O].
      * split; [simpl; lia|]. intro N. exfalso. apply N. reflexivity.
    + rewrite (run_dispatch_raises w a _ C), Quiet.
      split; [simpl; lia|]. intro N. exfalso. apply N. reflexivity.
  - rewrite (run_dispatch_raises w a _ C), Quiet.
    split; [simpl; lia|]. intro N. exfalso. apply N. reflexivity.
Qed.

Lemma X8_witness :
  exists d, selected Demo.args = Some d
            /\ outcome (epoch_loop Demo.world Demo.args
                          (env_of Demo.world Demo.args d) fresh) = Ok tt.
Proof.
  apply (proj2 (X8_checkpoint_only_after_all_epochs Demo.world Demo.args)).
  vm_compute. discriminate.
Defined.

(** ** The reconstruction image *)

(** X9. For a first test batch of [batch_size] one-channel images, the
    reconstruction image holds the first [min(batch_size, 8)] inputs
    followed by their reconstructions: [2 * min(batch_size, 8)] images of
    [img_size] x [img_size], laid out [min(batch_size, 8)] per row, so that
    each reconstruction sits below its input. *)
Theorem X9_reconstruction_layout w a env epoch s :
  0 < batch_size a ->
  0 < img_size env ->
  Tensor.numel (recon_shape w (the_model a env)
                  [batch_size a; 1; img_size env; img_size env])
  = batch_size a * (img_size env * img_size env) ->
  trace (test_batch w a env epoch 0
           [batch_size a; 1; img_size env; img_size env] s) =
  [EForward false [batch_size a; 1; img_size env; img_size env];
   ELoss false (beta a);
   ESaveImage (reconstruction_path w a epoch)
     [2 * Z.min (batch_size a) 8; 1; img_size env; img_size env]
     (Z.min (batch_size a) 8)]
  /\ Z.min (batch_size a) 8 <= 8.
Proof.
  intros Hb Hi Hn. split; [|lia]. unfold test_batch.
  rewrite !trace_emit_then. change (0 =? 0) with true. cbv iota.
  rewrite (save_reconstruction_full w a env epoch s Hb Hi Hn).
  cbn [trace fst].
  replace (Z.min (Z.min (batch_size a) 8) (batch_size a))
    with (Z.min (batch_size a) 8) by lia.
  replace (Z.min (batch_size a) 8 + Z.min (batch_size a) 8)
    with (2 * Z.min (batch_size a) 8) by lia.
  reflexivity.
Qed.

Lemma X9_witness :
  trace (test_batch Demo.world Demo.args (env_of Demo.world Demo.args MNIST) 1 0
           [16; 1; 28; 28] fresh) =
  [EForward false [16; 1; 28; 28]; ELoss false (Py.Float 4);
   ESaveImage "results_MNIST_vae_zdim-2_beta-4.0/reconstruction_1.png"
     [16; 1; 28; 28] 8].
Proof.
  apply (proj1 (X9_reconstruction_layout Demo.world Demo.args
                  (env_of Demo.world Demo.args MNIST) 1 fresh
                  eq_refl eq_refl eq_refl)).
Defined.

(** ** What is logged, and where *)

Lemma log_train_quiet a env epoch i data :
  always (fun e => add_scalars_of e = None) (log_train a env epoch i data).
Proof. unfold_script; always_tac; reflexivity. Qed.

Lemma log_train_ok a env epoch i data s :
  outcome (log_train a env epoch i data s) = Ok tt ->
  collect progress_of (trace (log_train a env epoch i data s)) =
  if logged a i then [i] else [].
Proof.
  unfold log_train, logged, py_mod, divide_by, bind.
  destruct (log_interval a =? 0); cbn; [discriminate|].
  destruct ((i mod log_interval a =? 0) && negb (i =? 0)); cbn; [|reflexivity].
  destruct (Tensor.len data) as [n|]; cbn; [|discriminate].
  destruct (Z.of_nat (length (batches (train_loader env))) =? 0); cbn;
    [discriminate|].
  destruct (n =? 0); cbn; [discriminate|reflexivity].
Qed.

Lemma train_batch_logging a env epoch i data s :
  outcome (train_batch a env epoch i data s) = Ok tt ->
  collect add_scalars_of (trace (train_batch a env epoch i data s)) =
    (if tensorboard a then [("train_data", i * epoch)] else [])
  /\ collect progress_of (trace (train_batch a env epoch i data s)) =
     if logged a i then [i] else [].
Proof.
  intro H. destruct (train_batch_ok_inv _ _ _ _ _ _ H) as (Hb & _).
  rewrite train_batch_trace. revert H. unfold train_batch.
  rewrite !outcome_emit_then, outcome_bind, optimizer_step_run.
  cbn [outcome snd final fst]. rewrite outcome_bind, trace_bind.
  rewrite (plot_train_run _ _ _ _ Hb). cbn [outcome trace final fst snd].
  intro H. rewrite !collect_app.
  rewrite (log_train_ok _ _ _ _ _ _ H).
  rewrite (collect_none add_scalars_of (trace (log_train _ _ _ _ _ _)))
    by apply log_train_quiet.
  unfold batch_step, plot_event. destruct (tensorboard a); split; reflexivity.
Qed.

Lemma enum_flat_singletons {X Y} (f : Z -> Y) (xs : list X) : forall i,
  enum_flat (fun j _ => [f j]) i xs =
  map f (map (fun k => i + Z.of_nat k) (seq 0 (length xs))).
Proof.
  induction xs as [|x xs IH]; intro i; [reflexivity|].
  cbn [enum_flat length seq map app]. rewrite Z.add_0_r. f_equal.
  rewrite IH, <- seq_shift, !map_map. apply map_ext. intro k. f_equal. lia.
Qed.

Lemma enum_flat_filter {X} (p : Z -> bool) (xs : list X) : forall i,
  enum_flat (fun j _ => if p j then [j] else []) i xs =
  filter p (map (fun k => i + Z.of_nat k) (seq 0 (length xs))).
Proof.
  induction xs as [|x xs IH]; intro i; [reflexivity|].
  cbn [enum_flat length seq map filter]. rewrite Z.add_0_r.
  rewrite IH, <- seq_shift, !map_map.
  replace (map (fun x0 => i + 1 + Z.of_nat x0) (seq 0 (length xs)))
    with (map (fun x0 => i + Z.of_nat (S x0)) (seq 0 (length xs)))
    by (apply map_ext; intro k; lia).
  destruct (p i); reflexivity.
Qed.

Lemma range_from_zero n :
  Py.range 0 (Z.of_nat n) = map (fun k => 0 + Z.of_nat k) (seq 0 n).
Proof. unfold Py.range. now rewrite Z.sub_0_r, Nat2Z.id. Qed.

Lemma train_loop_collect {Y} (pi : Event -> option Y) a env epoch s :
  pi ESetTrain = None -> pi ESchedulerStep = None ->
  pi (EPrint (PEpochAverage epoch)) = None ->
  outcome (train a env epoch s) = Ok tt ->
  outcome (for_enumerate 0 (batches (train_loader env))
             (train_batch a env epoch) s) = Ok tt
  /\ collect pi (trace (train a env epoch s)) =
     collect pi (trace (for_enumerate 0 (batches (train_loader env))
                          (train_batch a env epoch) s)).
Proof.
  intros P1 P2 P3. unfold train.
  rewrite outcome_emit_then, trace_emit_then. intro H.
  apply bind_ok in H. destruct H as ([] & H1 & H2). split; [exact H1|].
  rewrite trace_bind, H1, (train_tail_run _ _ _ H2).
  cbn [trace fst collect]. rewrite P1, collect_app. cbn [collect].
  rewrite P2, P3. apply app_nil_r.
Qed.

(** X10. With [--tensorboard], in an epoch that [train] completes, training
    batch [i] of epoch [e] is logged at global step [i * e]: the steps of
    epoch [e] are 0, e, 2e, ..., so the first batch of every epoch is logged
    at step 0 and steps of different epochs coincide.  Evaluation logs once
    per epoch, at step [e * len(train_loader)]. *)
Theorem X10_tensorboard_steps w a env epoch s :
  tensorboard a = true ->
  (outcome (train a env epoch s) = Ok tt ->
   collect add_scalars_of (trace (train a env epoch s)) =
   map (fun i => ("train_data", i * epoch))
       (Py.range 0 (Z.of_nat (length (batches (train_loader env))))))
  /\ (outcome (test w a env epoch s) = Ok tt ->
      collect add_scalars_of (trace (test w a env epoch s)) =
      [("test_data", epoch * Z.of_nat (length (batches (train_loader env))))]).
Proof.
  intro Tb. split.
  - intro H.
    destruct (train_loop_collect add_scalars_of a env epoch s
                eq_refl eq_refl eq_refl H) as (L & ->).
    rewrite (for_enumerate_ok add_scalars_of
               (fun i _ => [("train_data", i * epoch)])); auto.
    + now rewrite enum_flat_singletons, range_from_zero.
    + intros i x s0 H0.
      destruct (train_batch_logging _ _ _ _ _ _ H0) as (E & _).
      now rewrite E, Tb.
  - unfold test. rewrite outcome_emit_then, trace_emit_then. intro H.
    apply bind_ok in H. destruct H as ([] & H1 & H2).
    rewrite trace_bind, H1. cbn [collect add_scalars_of].
    rewrite collect_app.
    rewrite (collect_none add_scalars_of (trace (for_enumerate _ _ _ _)))
      by (apply always_for_enumerate; intros; unfold_script; always_tac;
          reflexivity).
    revert H2. unfold divide_by. rewrite Tb.
    destruct (sampler_len (test_loader env) =? 0); [discriminate|].
    intros _. reflexivity.
Qed.

Lemma X10_witness :
  collect add_scalars_of
    (trace (train (Flag.set_tensorboard true Demo.args)
                  (env_of Demo.world Demo.args MNIST) 2 fresh))
  = [("train_data", 0); ("train_data", 2)].
Proof.
  apply (proj1 (X10_tensorboard_steps Demo.world
                  (Flag.set_tensorboard true Demo.args)
                  (env_of Demo.world Demo.args MNIST) 2 fresh eq_refl)).
  vm_compute. reflexivity.
Defined.

(** X11. In an epoch that [train] completes, a progress line is printed for
    training batch [i] exactly when [i] is a non-zero multiple of
    [log_interval]: batch 0 is never reported, and the reported batches are
    in increasing order. *)
Theorem X11_progress_lines a env epoch s :
  outcome (train a env epoch s) = Ok tt ->
  collect progress_of (trace (train a env epoch s)) =
  filter (fun i => (i mod log_interval a =? 0) && negb (i =? 0))
         (Py.range 0 (Z.of_nat (length (batches (train_loader env))))).
Proof.
  intro H.
  destruct (train_loop_collect progress_of a env epoch s
              eq_refl eq_refl eq_refl H) as (L & ->).
  rewrite (for_enumerate_ok progress_of
             (fun i _ => if logged a i then [i] else [])); auto.
  - now rewrite (enum_flat_filter (logged a)), range_from_zero.
  - intros i x s0 H0. apply (train_batch_logging _ _ _ _ _ _ H0).
Qed.

Lemma X11_witness :
  collect progress_of
    (trace (train Demo.args (env_of Demo.world Demo.args MNIST) 1 fresh))
  = [1].
Proof.
  rewrite (X11_progress_lines Demo.args (env_of Demo.world Demo.args MNIST) 1 fresh).
  - reflexivity.
  - vm_compute. reflexivity.
Defined.

(** ** A first test batch of the wrong size, seen from the whole run *)

Lemma test_short w a env epoch d0 dims rest s :
  0 < batch_size a -> 0 < img_size env ->
  batches (test_loader env) = (d0 :: dims) :: rest ->
  Tensor.numel (recon_shape w (the_model a env) (d0 :: dims))
  = d0 * (img_size env * img_size env) ->
  d0 <> batch_size a ->
  test w a env epoch s =
  ([ESetEval; EForward false (d0 :: dims); ELoss false (beta a)], s,
   Raise RuntimeError).
Proof.
  intros Hb Hi Hl Hn Hd.
  assert (B : test_batch w a env epoch 0 (d0 :: dims) s =
              ([EForward false (d0 :: dims); ELoss false (beta a)], s,
               Raise RuntimeError)).
  { unfold test_batch. change (0 =? 0) with true. cbv iota.
    unfold bind at 1 2. cbn [emit].
    now rewrite (save_reconstruction_short w a env epoch d0 dims s Hb Hi Hn Hd). }
  unfold test. rewrite Hl. cbn [for_enumerate].
  unfold bind at 1. cbn [emit].
  now rewrite (bind_raise _ _ _ _ _ _ (bind_raise _ _ _ _ _ _ B)).
Qed.

Lemma train_writes_nothing a env epoch :
  always (fun e => written_file e = None) (train a env epoch).
Proof. unfold_script; always_tac; reflexivity. Qed.

(** X12. When the first test batch does not hold exactly [batch_size]
    items (and training itself goes through), the whole run is lost in its
    first epoch: it trains on every training batch, decays the learning
    rate, fails with a RuntimeError in the first evaluation, and ends
    without having written a single image or a checkpoint. *)
Theorem X12_wrong_first_test_batch_loses_the_run w a d d0 dims rest :
  let env := env_of w a d in
  selected a = Some d ->
  has_model w d (model_name a) = true ->
  0 < epochs a ->
  0 < batch_size a ->
  log_interval a <> 0 ->
  sampler_len (train_loader env) <> 0 ->
  Forall batch_ok (batches (train_loader env)) ->
  batches (test_loader env) = (d0 :: dims) :: rest ->
  Tensor.numel (recon_shape w (the_model a env) (d0 :: dims))
  = d0 * (img_size env * img_size env) ->
  d0 <> batch_size a ->
  outcome (run w a) = Raise RuntimeError
  /\ files_written (trace (run w a)) = []
  /\ steps (final (run w a)) = length (batches (train_loader env))
  /\ lr (final (run w a)) = (0.001 * 0.98)%float
  /\ computations (trace (run w a)) =
     (ESetTrain :: flat_map (batch_step a) (batches (train_loader env))
        ++ [ESchedulerStep])
     ++ [ESetEval; EForward false (d0 :: dims); ELoss false (beta a)].
Proof.
  intros env Sel Hm He Hb Hl Hs Hf Ht Hn Hd.
  pose proof (img_size_positive w a d) as Hi. fold env in Hi.
  assert (Tok : outcome (train a env 1 fresh) = Ok tt)
    by (apply train_returns; auto; lia).
  destruct (train_ok _ _ _ _ Tok) as (Tc & _ & Tl & Ts).
  pose proof (train_writes_nothing a env 1 fresh) as Tw.
  assert (B : epoch_body w a env 1 fresh =
              (trace (train a env 1 fresh)
                 ++ [ESetEval; EForward false (d0 :: dims); ELoss false (beta a)],
               final (train a env 1 fresh), Raise RuntimeError)).
  { unfold epoch_body. unfold bind at 1.
    destruct (train a env 1 fresh) as [[t1 s1] o1].
    cbn [outcome trace final fst snd] in *. subst o1.
    now rewrite (bind_raise _ _ _ _ _ _
                   (test_short w a env 1 d0 dims rest s1 Hb Hi Ht Hn Hd)). }
  assert (R : run w a =
              (prologue_events w a
                 ++ ELoad d (batch_size a) :: setup_events w a env
                 ++ trace (train a env 1 fresh)
                 ++ [ESetEval; EForward false (d0 :: dims); ELoss false (beta a)],
               final (train a env 1 fresh), Raise RuntimeError)).
  { rewrite (run_loaded w a d Sel Hm). fold env.
    assert (L : epoch_loop w a env fresh =
                (trace (train a env 1 fresh)
                   ++ [ESetEval; EForward false (d0 :: dims);
                       ELoss false (beta a)],
                 final (train a env 1 fresh), Raise RuntimeError)).
    { unfold epoch_loop, Py.range.
      replace (Z.to_nat (epochs a + 1 - 1)) with (S (Z.to_nat (epochs a - 1)))
        by lia.
      cbn [seq map for_each]. change (1 + Z.of_nat 0) with 1.
      now rewrite (bind_raise _ _ _ _ _ _ B). }
    now rewrite (bind_raise _ _ _ _ _ _ L). }
  rewrite R. cbn [outcome trace final fst snd].
  split; [reflexivity|]. split; [|split; [|split]].
  - unfold files_written. rewrite collect_app. cbn [collect written_file].
    rewrite !collect_app, (collect_none written_file _ Tw).
    unfold prologue_events, setup_events.
    destruct (path_exists w (dirName w a)), (tensorboard a); reflexivity.
  - rewrite Ts. reflexivity.
  - exact Tl.
  - unfold computations in *. rewrite collect_app. cbn [collect computation].
    rewrite !collect_app, Tc.
    rewrite (collect_none computation (prologue_events w a))
      by (eapply Forall_impl; [|apply prologue_plumbing];
          now intros e ((Q & _) & _)).
    rewrite (collect_none computation (setup_events w a env))
      by (eapply Forall_impl; [|apply setup_plumbing]; now intros e (Q & _)).
    reflexivity.
Qed.

Lemma X12_witness :
  outcome (run {| cuda_available := false;
                  path_exists := fun _ => false;
                  has_model := fun _ _ => true;
                  load_data := fun _ _ =>
                    ({| batches := [[16; 1; 28; 28]]; sampler_len := 16;
                        dataset_len := 16 |},
                     {| batches := [[10; 1; 28; 28]]; sampler_len := 10;
                        dataset_len := 10 |});
                  recon_shape := fun _ s => s;
                  decode_shape := fun _ s => s;
                  str_float := fun _ => "4.0" |}
               Demo.args)
  = Raise RuntimeError.
Proof.
  refine (proj1 (X12_wrong_first_test_batch_loses_the_run _ Demo.args MNIST
                   10 [1; 28; 28] [] _ _ _ _ _ _ _ _ _ _));
    try reflexivity; try discriminate.
  cbn. repeat constructor. eexists _, _. split; [reflexivity|discriminate].
Defined.

(** ** Evaluation and sampling *)


(** ** Objects that are built once *)

Lemma after_setup_builds_nothing w a env :
  always (fun e => load_of e = None /\ model_of e = None
                   /\ initial_rate_of e = None /\ decay_of e = None
                   /\ plot_sink e = None)
         (epoch_loop w a env ;; save_checkpoint w a env ;;
          sample_latent_space w a env).
Proof. unfold_script; always_tac; repeat split. Qed.

(** X14. In every run that gets past the dispatch, whatever happens later,
    the data is loaded once (with the batch size of the command line), and
    one model, one Adam optimizer at 1e-3, one exponential scheduler at 0.98
    and one plotting sink are built: nothing is reloaded or rebuilt between
    epochs. *)
Theorem X14_objects_built_once w a d :
  selected a = Some d ->
  has_model w d (model_name a) = true ->
  collect load_of (trace (run w a)) = [(d, batch_size a)]
  /\ collect model_of (trace (run w a)) =
     [{| m_data := d; m_name := model_name a; m_z_dim := z_dim a;
         m_img_size := match d with MNIST => 28 | DSprites => 64 end |}]
  /\ collect initial_rate_of (trace (run w a)) = [0.001%float]
  /\ collect decay_of (trace (run w a)) = [0.98%float]
  /\ collect plot_sink (trace (run w a)) =
     [if tensorboard a then ENewSummaryWriter
      else ENewLossPlot (epochs a)
             (sampler_len (train_loader (env_of w a d))) (batch_size a) 50
             (dirName w a)].
Proof.
  intros Sel Hm. rewrite (run_loaded w a d Sel Hm).
  pose proof (after_setup_builds_nothing w a (env_of w a d) fresh) as Q.
  destruct ((epoch_loop w a (env_of w a d);; save_checkpoint w a (env_of w a d);;
             sample_latent_space w a (env_of w a d)) fresh) as [[t s] o].
  cbn [trace fst] in *.
  assert (Q1 : collect load_of t = [])
    by (apply collect_none; eapply Forall_impl; [|exact Q]; now intros e (? & _)).
  assert (Q2 : collect model_of t = [])
    by (apply collect_none; eapply Forall_impl; [|exact Q];
        now intros e (_ & ? & _)).
  assert (Q3 : collect initial_rate_of t = [])
    by (apply collect_none; eapply Forall_impl; [|exact Q];
        now intros e (_ & _ & ? & _)).
  assert (Q4 : collect decay_of t = [])
    by (apply collect_none; eapply Forall_impl; [|exact Q];
        now intros e (_ & _ & _ & ? & _)).
  assert (Q5 : collect plot_sink t = [])
    by (apply collect_none; eapply Forall_impl; [|exact Q];
        now intros e (_ & _ & _ & _ & ?)).
  rewrite !collect_app. cbn [collect load_of model_of initial_rate_of decay_of
                               plot_sink].
  rewrite !collect_app, Q1, Q2, Q3, Q4, Q5.
  unfold prologue_events, setup_events.
  destruct (path_exists w (dirName w a)), (tensorboard a); repeat split.
Qed.

Lemma X14_witness :
  collect load_of (trace (run Demo.world Demo.args)) = [(MNIST, 16)].
Proof.
  apply (X14_objects_built_once Demo.world Demo.args MNIST); reflexivity.
Defined.

(** ** File names *)

Lemma string_length_app (s t : string) :
  String.length (s ++ t) = (String.length s + String.length t)%nat.
Proof. induction s as [|c s IH]; simpl; [reflexivity|now rewrite IH]. Qed.

Lemma string_app_inv_head (p x y : string) :
  (p ++ x = p ++ y)%string -> x = y.
Proof.
  induction p as [|c p IH]; simpl; intro H; [exact H|].
  injection H as H. now apply IH.
Qed.

Lemma string_app_inv_tail (t : string) : forall x y : string,
  (x ++ t = y ++ t)%string -> x = y.
Proof.
  induction x as [|c x IH]; intros [|c' y] H; simpl in H.
  - reflexivity.
  - apply (f_equal String.length) in H. simpl in H.
    rewrite string_length_app in H. lia.
  - apply (f_equal String.length) in H. simpl in H.
    rewrite string_length_app in H. lia.
  - injection H as -> H. f_equal. now apply IH.
Qed.

Lemma str_int_parses (n : Z) :
  NilZero.int_of_string (Py.str_int n) = Some (Z.to_int n).
Proof.
  unfold Py.str_int. apply NilZero.isi; destruct n; simpl; try discriminate;
    intro E; injection E; apply Unsigned.to_uint_nonnil.
Qed.

Lemma str_int_inj (n m : Z) : Py.str_int n = Py.str_int m -> n = m.
Proof.
  intro H. apply to_int_inj.
  pose proof (str_int_parses n) as Hn. rewrite H, str_int_parses in Hn.
  now injection Hn.
Qed.

Lemma reconstruction_path_inj w a e e' :
  reconstruction_path w a e = reconstruction_path w a e' -> e = e'.
Proof.
  unfold reconstruction_path. intro H.
  apply string_app_inv_head, string_app_inv_head, string_app_inv_tail in H.
  now apply str_int_inj.
Qed.

Lemma sample_path_inj w a e e' :
  sample_path w a e = sample_path w a e' -> e = e'.
Proof.
  unfold sample_path. intro H.
  apply string_app_inv_head, string_app_inv_head, string_app_inv_tail in H.
  now apply str_int_inj.
Qed.

Lemma reconstruction_not_sample w a e e' :
  reconstruction_path w a e <> sample_path w a e'.
Proof.
  unfold reconstruction_path, sample_path. intro H.
  apply string_app_inv_head in H. simpl in H. discriminate.
Qed.

Lemma reconstruction_not_latent w a e :
  reconstruction_path w a e <> latent_path w a.
Proof.
  unfold reconstruction_path, latent_path. intro H.
  apply string_app_inv_head in H. simpl in H. discriminate.
Qed.

Lemma sample_not_latent w a e : sample_path w a e <> latent_path w a.
Proof.
  unfold sample_path, latent_path. intro H.
  apply string_app_inv_head in H.
  change "/sample_latent_space.png"
    with ("/sample_" ++ "latent_space" ++ ".png")%string in H.
  apply string_app_inv_head, string_app_inv_tail in H.
  pose proof (str_int_parses e) as P. rewrite H in P. discriminate.
Qed.

Lemma range_NoDup lo hi : NoDup (Py.range lo hi).
Proof.
  unfold Py.range. apply Finite.Injective_map_NoDup_in; [|apply seq_NoDup].
  intros x y _ _ H. lia.
Qed.

Lemma in_names {X Y} (f g : X -> Y) (c : Y) (b : bool) (l : list X) (y : Y) :
  In y (flat_map (fun e => (if b then [f e] else []) ++ [g e]) l ++ [c]) ->
  (exists e, In e l /\ (y = f e \/ y = g e)) \/ y = c.
Proof.
  intro H. apply in_app_or in H. destruct H as [H|[H|[]]]; [|now right].
  left. apply in_flat_map in H. destruct H as (e & He & H). exists e.
  split; [exact He|]. destruct b; simpl in H; intuition.
Qed.

Lemma NoDup_names {X Y} (f g : X -> Y) (c : Y) (b : bool) (l : list X) :
  (forall x y, f x = f y -> x = y) ->
  (forall x y, g x = g y -> x = y) ->
  (forall x y, f x <> g y) ->
  (forall x, f x <> c) ->
  (forall x, g x <> c) ->
  NoDup l ->
  NoDup (flat_map (fun e => (if b then [f e] else []) ++ [g e]) l ++ [c]).
Proof.
  intros Hf Hg Hfg Hfc Hgc N. induction N as [|x l Hx N IH].
  - simpl. constructor; [intros []|constructor].
  - cbn [flat_map]. rewrite <- app_assoc.
    assert (G : NoDup (g x :: flat_map
                  (fun e => (if b then [f e] else []) ++ [g e]) l ++ [c])).
    { constructor; [|exact IH]. intro H. apply in_names in H.
      destruct H as [(e & He & [E|E])|E].
      - exact (Hfg _ _ (eq_sym E)).
      - apply Hg in E. congruence.
      - exact (Hgc _ E). }
    destruct b; [|exact G].
    change (NoDup (f x :: g x :: flat_map
              (fun e => (if true then [f e] else []) ++ [g e]) l ++ [c])).
    constructor; [|exact G]. intros [E|H].
    + exact (Hfg _ _ (eq_sym E)).
    + apply (in_names f g c true) in H. destruct H as [(e & He & [E|E])|E].
      * apply Hf in E. congruence.
      * exact (Hfg _ _ E).
      * exact (Hfc _ E).
Qed.

(** X15. In a run that completes, no image file is written twice: the
    reconstruction and sample images of different epochs, and the latent
    traversal image, all have different paths, so within one run no image
    overwrites another. *)
Theorem X15_image_paths_distinct w a :
  outcome (run w a) = Ok tt -> NoDup (images_written (trace (run w a))).
Proof.
  intro H. destruct (run_trace w a H) as (d & g & shape & Sel & O & G & T & F).
  destruct (epoch_loop_ok _ _ _ _ O) as (_ & I & _).
  unfold images_written in *.
  rewrite (run_projection image_file w a d g shape); auto.
  - rewrite I. cbn [closing_events collect image_file].
    destruct (batches (test_loader (env_of w a d))) as [|b bs].
    + apply (NoDup_names (reconstruction_path w a) (sample_path w a)
               (latent_path w a) false).
      * apply reconstruction_path_inj.
      * apply sample_path_inj.
      * apply reconstruction_not_sample.
      * apply reconstruction_not_latent.
      * apply sample_not_latent.
      * apply range_NoDup.
    + apply (NoDup_names (reconstruction_path w a) (sample_path w a)
               (latent_path w a) true).
      * apply reconstruction_path_inj.
      * apply sample_path_inj.
      * apply reconstruction_not_sample.
      * apply reconstruction_not_latent.
      * apply sample_not_latent.
      * apply range_NoDup.
  - now intros e (_ & Q & _).
Qed.

Lemma X15_witness : NoDup (images_written (trace (run Demo.world Demo.args))).
Proof.
  apply (X15_image_paths_distinct Demo.world Demo.args). vm_compute. reflexivity.
Defined.

(** X16. The directory name keeps apart runs that differ in the spelling of
    the dataset name, in the model name or in the latent dimension alone.
    In particular two spellings of one dataset (['MNIST'], ['mnist']) train
    on the same data but write to different directories. *)
Theorem X16_directory_separates_runs w a1 a2 :
  beta a1 = beta a2 ->
  (model_name a1 = model_name a2 -> z_dim a1 = z_dim a2 ->
   data a1 <> data a2 -> dirName w a1 <> dirName w a2)
  /\ (data a1 = data a2 -> z_dim a1 = z_dim a2 ->
      model_name a1 <> model_name a2 -> dirName w a1 <> dirName w a2)
  /\ (data a1 = data a2 -> model_name a1 = model_name a2 ->
      z_dim a1 <> z_dim a2 -> dirName w a1 <> dirName w a2)
  /\ (Py.lower (data a1) = Py.lower (data a2) -> selected a1 = selected a2).
Proof.
  intro Hb. unfold dirName. rewrite Hb. repeat split.
  - intros Hm Hz N E. rewrite Hm, Hz in E.
    apply string_app_inv_head, string_app_inv_tail in E. contradiction.
  - intros Hd Hz N E. rewrite Hd, Hz in E.
    apply string_app_inv_head, string_app_inv_head, string_app_inv_head,
      string_app_inv_tail in E. contradiction.
  - intros Hd Hm N E. rewrite Hd, Hm in E.
    do 5 apply string_app_inv_head in E.
    apply string_app_inv_tail, str_int_inj in E. contradiction.
  - intro E. unfold selected. now rewrite E.
Qed.

Lemma X16_witness :
  dirName Demo.world Demo.args
  <> dirName Demo.world (Flag.set_data "mnist" Demo.args)
  /\ selected Demo.args = selected (Flag.set_data "mnist" Demo.args).
Proof.
  split.
  - apply (proj1 (X16_directory_separates_runs Demo.world Demo.args
                    (Flag.set_data "mnist" Demo.args) eq_refl));
      [reflexivity|reflexivity|discriminate].
  - apply (proj2 (proj2 (proj2 (X16_directory_separates_runs Demo.world Demo.args
                    (Flag.set_data "mnist" Demo.args) eq_refl)))).
    reflexivity.
Defined.

(** ** The plotting toggle does not touch the training *)

Lemma agree_refl {A} (m : M A) : agree m m.
Proof. intro s. repeat split. Qed.

Lemma agree_emit e e' : core e = core e' -> agree (emit e) (emit e').
Proof. intros H s. cbn. now rewrite H. Qed.

Lemma agree_bind {A B} (m m' : M A) (f f' : A -> M B) :
  agree m m' -> (forall x, agree (f x) (f' x)) -> agree (bind m f) (bind m' f').
Proof.
  intros Hm Hf s. destruct (Hm s) as (O & F & T).
  rewrite !outcome_bind, !final_bind, !trace_bind, !collect_app, O, F, T.
  destruct (outcome (m' s)) as [x|e]; [|repeat split].
  destruct (Hf x (final (m' s))) as (O' & F' & T').
  now rewrite O', F', T'.
Qed.

Lemma agree_for_enumerate {X} (body body' : Z -> X -> M unit) :
  (forall i x, agree (body i x) (body' i x)) ->
  forall xs i, agree (for_enumerate i xs body) (for_enumerate i xs body').
Proof.
  intros Hb xs; induction xs as [|x xs IH]; intro i; cbn [for_enumerate].
  - apply agree_refl.
  - apply agree_bind; auto.
Qed.

Lemma agree_for_each {X} (body body' : X -> M unit) :
  (forall x, agree (body x) (body' x)) ->
  forall xs, agree (for_each xs body) (for_each xs body').
Proof.
  intros Hb xs; induction xs as [|x xs IH]; cbn [for_each].
  - apply agree_refl.
  - apply agree_bind; auto.
Qed.

Ltac agree_step :=
  match goal with
  | |- agree ?m ?m => apply agree_refl
  | |- agree (bind _ _) (bind _ _) => apply agree_bind; [|intro]
  | |- agree (emit _) (emit _) => apply agree_emit; reflexivity
  | |- agree (for_enumerate _ _ _) (for_enumerate _ _ _) =>
      apply agree_for_enumerate; do 2 intro
  | |- agree (for_each _ _) (for_each _ _) => apply agree_for_each; intro
  | |- agree (if ?c then _ else _) (if ?c then _ else _) => destruct c
  | |- agree (if ?b then _ else _) (if tensorboard ?a then _ else _) =>
      destruct b; destruct (tensorboard a)
  end.

Lemma plotting_agree w a b :
  (forall d, load_data w d (Flag.set_tensorboard b a) = load_data w d a) ->
  agree (main w (Flag.set_tensorboard b a)) (main w a).
Proof.
  intro L. unfold_script.
  unfold reconstruction_path, sample_path, latent_path, model_out_path,
    dirName, the_model.
  rewrite !L. unfold Flag.set_tensorboard.
  cbn [data model_name z_dim beta batch_size epochs log_interval seed no_cuda
       tensorboard].
  repeat agree_step.
Qed.

(** X17. Choosing TensorBoard or the loss plot changes nothing but the
    plotting: if the loaders do not depend on the toggle, the run ends the
    same way, in the same state, having made exactly the same calls apart
    from plotting and printing, and having written the same files. *)
Theorem X17_plotting_toggle_is_inert w a b :
  (forall d, load_data w d (Flag.set_tensorboard b a) = load_data w d a) ->
  outcome (run w (Flag.set_tensorboard b a)) = outcome (run w a)
  /\ final (run w (Flag.set_tensorboard b a)) = final (run w a)
  /\ collect core (trace (run w (Flag.set_tensorboard b a)))
     = collect core (trace (run w a))
  /\ files_written (trace (run w (Flag.set_tensorboard b a)))
     = files_written (trace (run w a))
  /\ computations (trace (run w (Flag.set_tensorboard b a)))
     = computations (trace (run w a)).
Proof.
  intro L. destruct (plotting_agree w a b L boot) as (O & F & T).
  fold (run w (Flag.set_tensorboard b a)) in *. fold (run w a) in *.
  assert (N : forall {Y} (pi : Event -> option Y),
             (forall e, core e = None -> pi e = None) ->
             forall t, collect pi (collect core t) = collect pi t).
  { intros Y pi P t. induction t as [|e t IH]; [reflexivity|].
    cbn [collect]. destruct (core e) as [e'|] eqn:E.
    - assert (e' = e) as -> by (destruct e; simpl in E; congruence).
      cbn [collect]. now rewrite IH.
    - now rewrite (P e E). }
  repeat split; auto.
  - unfold files_written.
    rewrite <- (N _ written_file) by (intros e E; destruct e; simpl in *; congruence).
    rewrite T. apply N. intros e E; destruct e; simpl in *; congruence.
  - unfold computations.
    rewrite <- (N _ computation) by (intros e E; destruct e; simpl in *; congruence).
    rewrite T. apply N. intros e E; destruct e; simpl in *; congruence.
Qed.

Lemma X17_witness :
  outcome (run Demo.world (Flag.set_tensorboard true Demo.args))
  = outcome (run Demo.world Demo.args).
Proof.
  apply (X17_plotting_toggle_is_inert Demo.world Demo.args true).
  intro d. reflexivity.
Defined.

(** ** When [os.mkdir] raises *)

Lemma prologue_with_created mk w a (k : M unit) s :
  mkdir_failure mk w a = None ->
  (parse_args w a ;; make_dir_with mk w a ;; k) s =
  let '(t, s', o) := k s in (prologue_events w a ++ t, s', o).
Proof.
  unfold mkdir_failure, parse_args, make_dir_with, prologue_events.
  destruct (path_exists w (dirName w a)); cbn [negb]; intro H;
    rewrite ?H; unfold bind; simpl; destruct (k s) as [[t s'] o]; reflexivity.
Qed.

Lemma prologue_with_failed mk w a (k : M unit) s e :
  mkdir_failure mk w a = Some e ->
  (parse_args w a ;; make_dir_with mk w a ;; k) s =
  (failed_mkdir_events w a, s, Raise e).
Proof.
  unfold mkdir_failure, parse_args, make_dir_with, failed_mkdir_events.
  destruct (path_exists w (dirName w a)); cbn [negb]; intro H;
    [discriminate|]. rewrite H. reflexivity.
Qed.

(** When line 34 does not raise, the run is the run of [main]. *)
Lemma run_with_created mk w a :
  mkdir_failure mk w a = None -> run_with mk w a = run w a.
Proof.
  intro H. unfold run_with, main_with, run.
  rewrite (prologue_with_created mk w a _ boot H). symmetry. apply main_trace.
Qed.

(** [run] is the run in which line 34 never raises. *)
Lemma run_without_failure w a : run_with (fun _ => None) w a = run w a.
Proof.
  apply run_with_created. unfold mkdir_failure.
  now destruct (path_exists w (dirName w a)).
Qed.

(** When it raises, the run ends there. *)
Lemma run_with_failed mk w a e :
  mkdir_failure mk w a = Some e ->
  run_with mk w a = (failed_mkdir_events w a, boot, Raise e).
Proof. intro H. unfold run_with, main_with. now apply prologue_with_failed. Qed.

Lemma run_unsupported w a :
  selected a = None ->
  run w a = (prologue_events w a, boot,
             Raise (Exception "Dataset not found. Try: MNIST, dSprites")).
Proof.
  intro Sel. pose proof (load_dataset_cases w a boot) as C. rewrite Sel in C.
  exact (run_dispatch_raises w a _ C).
Qed.

Lemma selected_none a :
  Py.lower (data a) <> "mnist" -> Py.lower (data a) <> "dsprites" ->
  selected a = None.
Proof.
  intros H1 H2. unfold selected. apply String.eqb_neq in H1, H2.
  now rewrite H1, H2.
Qed.

Lemma prologue_builds_nothing w a :
  existsb is_model_event (prologue_events w a) = false
  /\ existsb is_training_event (prologue_events w a) = false
  /\ files_written (prologue_events w a) = []
  /\ collect load_of (prologue_events w a) = []
  /\ collect model_of (prologue_events w a) = [].
Proof.
  unfold prologue_events, files_written.
  destruct (path_exists w (dirName w a)); repeat split.
Qed.

(** C1, as stated, fails: with a dataset name that has a ['/'] in it, on a
    file system where the parent directory does not exist, the run ends
    with the FileNotFoundError of [os.mkdir] on line 34; the dataset
    dispatch is never reached and its exception is not the one raised. *)
Lemma C1_mkdir_error_comes_first :
  Py.lower (data (Flag.set_data "a/b" Demo.args)) <> "mnist"
  /\ Py.lower (data (Flag.set_data "a/b" Demo.args)) <> "dsprites"
  /\ run_with Demo.flat Demo.world (Flag.set_data "a/b" Demo.args) =
     ([EManualSeed 1; EPrint (PRunningOnGPU false);
       EPrint (PArguments (Flag.set_data "a/b" Demo.args));
       EMkdir "results_a/b_vae_zdim-2_beta-4.0"],
      boot, Raise FileNotFoundError)
  /\ outcome (run_with Demo.flat Demo.world (Flag.set_data "a/b" Demo.args))
     <> Raise (Exception "Dataset not found. Try: MNIST, dSprites").
Proof.
  split; [discriminate|]. split; [discriminate|]. split; [reflexivity|].
  discriminate.
Qed.

(** C1, amended. A dataset name whose lowercase form is neither ['mnist']
    nor ['dsprites'] makes the run raise before any model is constructed,
    any training call is made or any file is written.  When the results
    directory exists or [os.mkdir] creates it, the exception is
    [Exception('Dataset not found...')], raised by the dataset dispatch
    right after argument parsing and directory creation; when [os.mkdir]
    raises, the run ends with that error on line 34, before the dispatch. *)
Theorem C1_unsupported_dataset_fails_fast mk w a :
  Py.lower (data a) <> "mnist" ->
  Py.lower (data a) <> "dsprites" ->
  outcome (run_with mk w a) =
    match mkdir_failure mk w a with
    | None => Raise (Exception "Dataset not found. Try: MNIST, dSprites")
    | Some e => Raise e
    end
  /\ trace (run_with mk w a) =
     match mkdir_failure mk w a with
     | None => prologue_events w a
     | Some e => failed_mkdir_events w a
     end
  /\ (mkdir_failure mk w a = None ->
      load_dataset w a boot =
      ([], boot, Raise (Exception "Dataset not found. Try: MNIST, dSprites")))
  /\ existsb is_model_event (trace (run_with mk w a)) = false
  /\ existsb is_training_event (trace (run_with mk w a)) = false
  /\ files_written (trace (run_with mk w a)) = [].
Proof.
  intros H1 H2. pose proof (selected_none a H1 H2) as Sel.
  destruct (prologue_builds_nothing w a) as (P1 & P2 & P3 & _).
  destruct (mkdir_failure mk w a) as [e|] eqn:F.
  - rewrite (run_with_failed mk w a e F). cbn [outcome trace fst snd].
    repeat split. discriminate.
  - rewrite (run_with_created mk w a F), (run_unsupported w a Sel).
    cbn [outcome trace fst snd]. split; [reflexivity|]. split; [reflexivity|].
    split; [intros _; now apply load_dataset_unsupported|].
    repeat split; assumption.
Qed.

Lemma C1_witness :
  outcome (run_with Demo.flat Demo.world (Flag.set_data "CIFAR" Demo.args))
  = Raise (Exception "Dataset not found. Try: MNIST, dSprites").
Proof.
  apply (C1_unsupported_dataset_fails_fast Demo.flat Demo.world
           (Flag.set_data "CIFAR" Demo.args)); simpl; discriminate.
Defined.

(** X2. When the dataset is supported but the model name is not a key of
    that dataset's [models], the run raises before the loaders are built, a
    model is constructed or anything is written: [KeyError(model_name)] from
    the dispatch when the results directory exists or [os.mkdir] creates
    it, and otherwise the error of [os.mkdir] on line 34. *)
Theorem X2_unknown_model_raises_key_error mk w a d :
  selected a = Some d ->
  has_model w d (model_name a) = false ->
  outcome (run_with mk w a) =
    match mkdir_failure mk w a with
    | None => Raise (KeyError (model_name a))
    | Some e => Raise e
    end
  /\ (mkdir_failure mk w a = None -> trace (run_with mk w a) = prologue_events w a)
  /\ collect load_of (trace (run_with mk w a)) = []
  /\ collect model_of (trace (run_with mk w a)) = []
  /\ files_written (trace (run_with mk w a)) = [].
Proof.
  intros Sel Hm. pose proof (load_dataset_cases w a boot) as C.
  rewrite Sel, Hm in C.
  destruct (prologue_builds_nothing w a) as (_ & _ & P3 & P4 & P5).
  destruct (mkdir_failure mk w a) as [e|] eqn:F.
  - rewrite (run_with_failed mk w a e F). cbn [outcome trace fst snd].
    repeat split. discriminate.
  - rewrite (run_with_created mk w a F), (run_dispatch_raises w a _ C).
    cbn [outcome trace fst snd]. repeat split; assumption.
Qed.

Lemma X2_witness :
  outcome (run_with Demo.flat Demo.world (Flag.set_model_name "gan" Demo.args))
  = Raise (KeyError "gan").
Proof.
  apply (X2_unknown_model_raises_key_error Demo.flat Demo.world
           (Flag.set_model_name "gan" Demo.args) MNIST); reflexivity.
Defined.

Lemma run_mkdir_calls w a :
  collect mkdir_of (trace (run w a)) =
  if path_exists w (dirName w a) then [] else [dirName w a].
Proof.
  unfold run. rewrite main_trace.
  pose proof (after_prologue_no_mkdir w a boot) as Q.
  destruct ((env <- load_dataset w a;; after_dispatch w a env) boot)
    as [[t s'] o].
  cbn [trace fst] in *. rewrite collect_app, (collect_none mkdir_of t Q).
  unfold prologue_events.
  destruct (path_exists w (dirName w a)); reflexivity.
Qed.

(** X3. Whatever the outcome of the run, [os.mkdir] is called exactly when
    the results directory does not exist yet (an existing directory is
    reused as it is), and before the dataset name is looked at: a run with
    an unsupported dataset still makes the call, and then raises the
    'Dataset not found' exception if the call returned, or the call's own
    error if it raised. *)
Theorem X3_directory_created_once mk w a :
  collect mkdir_of (trace (run_with mk w a)) =
  (if path_exists w (dirName w a) then [] else [dirName w a])
  /\ (selected a = None -> path_exists w (dirName w a) = false ->
      In (EMkdir (dirName w a)) (trace (run_with mk w a))
      /\ outcome (run_with mk w a) =
         match mk (dirName w a) with
         | None => Raise (Exception "Dataset not found. Try: MNIST, dSprites")
         | Some e => Raise e
         end).
Proof.
  split.
  - destruct (mkdir_failure mk w a) as [e|] eqn:F.
    + rewrite (run_with_failed mk w a e F). cbn [trace fst].
      unfold mkdir_failure in F.
      destruct (path_exists w (dirName w a)); [discriminate|reflexivity].
    + rewrite (run_with_created mk w a F). apply run_mkdir_calls.
  - intros Sel E.
    assert (F : mkdir_failure mk w a = mk (dirName w a))
      by (unfold mkdir_failure; now rewrite E).
    destruct (mk (dirName w a)) as [e|].
    + rewrite (run_with_failed mk w a e F). cbn [outcome trace fst snd].
      split; [|reflexivity]. unfold failed_mkdir_events. simpl. auto.
    + rewrite (run_with_created mk w a F), (run_unsupported w a Sel).
      cbn [outcome trace fst snd]. split; [|reflexivity].
      unfold prologue_events. rewrite E. simpl. auto.
Qed.

Lemma X3_witness :
  In (EMkdir "results_CIFAR_vae_zdim-2_beta-4.0")
     (trace (run_with Demo.flat Demo.world (Flag.set_data "CIFAR" Demo.args))).
Proof.
  apply (proj2 (X3_directory_created_once Demo.flat Demo.world
                  (Flag.set_data "CIFAR" Demo.args))); reflexivity.
Defined.

(** ** The learning rate in binary64 *)

Lemma falls_correct n : forall q,
  falls q n = true ->
  forall k, (k < n)%nat ->
    PrimFloat.ltb (decay_n q (S k)) (decay_n q k) = true.
Proof.
  induction n as [|n IH]; intros q H k Hk; [lia|].
  cbn [falls] in H. apply andb_prop in H. destruct H as (H0 & H).
  destruct k as [|k]; [exact H0|].
  rewrite <- (decay_n_shift q (S k)), <- (decay_n_shift q k).
  apply IH; [exact H|lia].
Qed.

Lemma stays_below_correct top n : forall q,
  stays_below top q n = true ->
  forall k, (k < n)%nat -> PrimFloat.ltb (decay_n q (S k)) top = true.
Proof.
  induction n as [|n IH]; intros q H k Hk; [lia|].
  cbn [stays_below] in H. apply andb_prop in H. destruct H as (H0 & H).
  destruct k as [|k]; [exact H0|].
  rewrite <- (decay_n_shift q (S k)). apply IH; [exact H|lia].
Qed.

Lemma falls_to_plateau : falls lr0 plateau = true.
Proof. vm_compute. reflexivity. Qed.

Lemma below_to_plateau : stays_below lr0 lr0 plateau = true.
Proof. vm_compute. reflexivity. Qed.

Lemma rate_at_plateau : decay_n lr0 plateau = floor_rate.
Proof. vm_compute. reflexivity. Qed.

Lemma floor_rate_fixed : PrimFloat.mul floor_rate gamma = floor_rate.
Proof. reflexivity. Qed.

Lemma rate_on_plateau k : decay_n lr0 (plateau + k) = floor_rate.
Proof.
  induction k as [|k IH].
  - rewrite Nat.add_0_r. apply rate_at_plateau.
  - rewrite Nat.add_succ_r. cbn [decay_n]. rewrite IH. apply floor_rate_fixed.
Qed.

Lemma rate_below_initial k : PrimFloat.ltb (decay_n lr0 (S k)) lr0 = true.
Proof.
  destruct (Nat.lt_ge_cases k plateau) as [L|L].
  - apply (stays_below_correct lr0 plateau lr0 below_to_plateau k L).
  - replace (S k) with (plateau + (S k - plateau))%nat by lia.
    rewrite rate_on_plateau. reflexivity.
Qed.

Lemma run_rates w a :
  outcome (run w a) = Ok tt ->
  learning_rates (trace (run w a)) = decayed lr0 (Z.to_nat (epochs a))
  /\ lr (final (run w a)) = decay_n lr0 (Z.to_nat (epochs a)).
Proof.
  intro H. destruct (run_trace w a H) as (d & g & shape & Sel & O & G & T & F).
  destruct (epoch_loop_ok _ _ _ _ O) as (_ & _ & _ & _ & R & L & _).
  split; [|now rewrite F].
  unfold learning_rates in *.
  rewrite (run_projection learning_rate_of w a d g shape); auto.
  - rewrite R. apply app_nil_r.
  - now intros e (_ & _ & _ & Q & _).
Qed.

Lemma run_returns w a d :
  well_behaved w a d -> outcome (run w a) = Ok tt.
Proof.
  intros (Sel & Hm & Hb & Hl & Hz & Htr & Hte & Hf & Hd & Hr & Hdec).
  pose proof (img_size_positive w a d) as Hi.
  rewrite (run_loaded w a d Sel Hm).
  destruct ((epoch_loop w a (env_of w a d);; save_checkpoint w a (env_of w a d);;
             sample_latent_space w a (env_of w a d)) fresh) as [[t s] o] eqn:E.
  cbn [outcome snd]. change o with (outcome (t, s, o)). rewrite <- E.
  clear E t s o. rewrite outcome_bind.
  assert (L : forall s, outcome (epoch_loop w a (env_of w a d) s) = Ok tt).
  { intro s. unfold epoch_loop. apply for_each_returns. intros e s0.
    unfold epoch_body.
    rewrite outcome_bind, train_returns by (auto; lia).
    rewrite outcome_bind, test_returns by auto.
    rewrite outcome_bind, report_lr_run. cbn [outcome snd final fst].
    apply sample_prior_returns; auto; [lia|]. apply Hdec. lia. }
  rewrite L, outcome_bind, save_checkpoint_run. cbn [outcome snd final fst].
  apply sample_latent_space_returns; auto. apply Hdec. simpl; lia.
Qed.

Lemma long_run_well_behaved :
  well_behaved Demo.world (Flag.set_epochs 36344 Demo.args) MNIST.
Proof.
  unfold well_behaved. cbv zeta.
  repeat match goal with |- _ /\ _ => split end;
    try reflexivity; try discriminate.
  - cbn. repeat constructor; eexists _, _; split; try reflexivity; discriminate.
  - cbn. intros data rest E. now injection E as <- _.
Qed.

(** C7, as stated, fails.  After the two epochs of the sample run the
    optimizer holds 0.0009603999999999999, which is neither the binary64
    number nearest to [1e-3 * 0.98^2] nor, taken exactly, equal to it.  And
    in a run of 36344 epochs the rates reported after epochs 36342 and 36343
    are equal: the sequence is not strictly decreasing. *)
Lemma C7_rate_is_rounded_and_stalls :
  (outcome (run Demo.world Demo.args) = Ok tt
   /\ epochs Demo.args = 2
   /\ lr (final (run Demo.world Demo.args)) = 0.0009603999999999999%float
   /\ PrimFloat.eqb (lr (final (run Demo.world Demo.args))) 0.0009604 = false
   /\ exists q, exact_value (lr (final (run Demo.world Demo.args))) = Some q
                /\ ~ (q == (1 # 1000) * (98 # 100) ^ 2)%Q)
  /\ (outcome (run Demo.world (Flag.set_epochs 36344 Demo.args)) = Ok tt
      /\ nth plateau
           (learning_rates
              (trace (run Demo.world (Flag.set_epochs 36344 Demo.args)))) 0%float
         = nth (pred plateau)
             (learning_rates
                (trace (run Demo.world (Flag.set_epochs 36344 Demo.args))))
             0%float
      /\ PrimFloat.ltb floor_rate floor_rate = false).
Proof.
  split.
  - split; [vm_compute; reflexivity|]. split; [reflexivity|].
    split; [vm_compute; reflexivity|]. split; [vm_compute; reflexivity|].
    eexists. split; [vm_compute; reflexivity|].
    intro H. vm_compute in H. discriminate.
  - pose proof (run_returns _ _ _ long_run_well_behaved) as O.
    destruct (run_rates _ _ O) as (R & _).
    split; [exact O|]. split; [|reflexivity].
    rewrite R. change (epochs (Flag.set_epochs 36344 Demo.args)) with 36344.
    rewrite !decayed_nth by (unfold plateau; lia).
    replace (S (pred plateau)) with (plateau + 0)%nat by (unfold plateau; lia).
    replace (S plateau) with (plateau + 1)%nat by lia.
    now rewrite !rate_on_plateau.
Qed.

(** C7, amended. In a run that completes, Adam starts at the binary64
    number 1e-3 under an exponential schedule of factor 0.98, and the
    scheduler is stepped once per epoch, after the epoch's batches.  Each
    step multiplies the rate by 0.98 in binary64, rounding to nearest, so
    after the [n] epochs of the run the optimizer holds the result of [n]
    rounded multiplications (0.00098 after one, 0.0009603999999999999 after
    two) and the rate read from the optimizer after epoch [k+1] is the
    result of [k+1] of them.  These per-epoch rates are all below 1e-3; they
    are strictly decreasing up to epoch 36342, and from that epoch on they
    stay at the subnormal number 24 * 2^-1074 (about 1.2e-322). *)
Theorem C7_learning_rate_decay w a :
  outcome (run w a) = Ok tt ->
  let n := Z.to_nat (epochs a) in
  let rates := learning_rates (trace (run w a)) in
  schedule (trace (run w a)) = Some (0.001, 0.98)%float
  /\ length (collect scheduler_step_of (trace (run w a))) = n
  /\ lr (final (run w a)) = decay_n 0.001 n
  /\ length rates = n
  /\ (forall k, (k < n)%nat -> nth k rates 0%float = decay_n 0.001 (S k))
  /\ (forall q k, decay_n q (S k) = (decay_n q k * 0.98)%float)
  /\ decay_n 0.001 1 = 0.00098%float
  /\ decay_n 0.001 2 = 0.0009603999999999999%float
  /\ (forall k, (k < n)%nat ->
        PrimFloat.ltb (nth k rates 0%float) 0.001 = true)
  /\ (forall k, (S k < n)%nat -> (S (S k) <= plateau)%nat ->
        PrimFloat.ltb (nth (S k) rates 0%float) (nth k rates 0%float) = true)
  /\ (forall k, (k < n)%nat -> (plateau <= S k)%nat ->
        nth k rates 0%float = floor_rate)
  /\ plateau = Z.to_nat 36342
  /\ exact_value floor_rate = Some (24 * 2 ^ (-1074))%Q.
Proof.
  intros H n rates. subst n rates.
  destruct (run_trace w a H) as (d & g & shape & Sel & O & G & T & F).
  destruct (run_rates w a H) as (E & L).
  split; [|split; [|split; [|split; [|split]]]].
  - unfold schedule. rewrite T, !collect_app.
    rewrite (collect_none initial_rate_of (prologue_events w a))
      by (eapply Forall_impl; [|apply prologue_plumbing]; now intros e (_ & Q & _)).
    rewrite (collect_none decay_of (prologue_events w a))
      by (eapply Forall_impl; [|apply prologue_plumbing]; now intros e (_ & _ & Q)).
    unfold setup_events. destruct (tensorboard a); reflexivity.
  - rewrite <- collect_narrow by (intros e Q; destruct e; simpl in *; congruence).
    rewrite (run_computations w a d g shape O T), collect_app, length_app.
    rewrite scheduler_steps_in_training. simpl. lia.
  - exact L.
  - rewrite E. apply decayed_length.
  - intros k Hk. rewrite E. now apply decayed_nth.
  - split; [reflexivity|]. split; [reflexivity|]. split; [reflexivity|].
    split; [|split; [|split; [|split]]].
    + intros k Hk. rewrite E, decayed_nth by assumption.
      apply rate_below_initial.
    + intros k Hk Hp. rewrite E, !decayed_nth by lia.
      apply (falls_correct plateau lr0 falls_to_plateau). lia.
    + intros k Hk Hp. rewrite E, decayed_nth by assumption.
      replace (S k) with (plateau + (S k - plateau))%nat by lia.
      apply rate_on_plateau.
    + reflexivity.
    + vm_compute. reflexivity.
Qed.

Lemma C7_witness :
  learning_rates (trace (run Demo.world Demo.args))
  = [0.00098; 0.0009603999999999999]%float
  /\ lr (final (run Demo.world Demo.args)) = decay_n 0.001 2.
Proof.
  split; [reflexivity|].
  refine (proj1 (proj2 (proj2 (C7_learning_rate_decay Demo.world Demo.args _)))).
  vm_compute. reflexivity.
Defined.
